(** * A shallow embedding of the web scrapper worker (src/src/index.ts)

    The model follows the current version of [src/src/index.ts]
    (class [WebScrapper] and the exported [fetch] / [queue] handlers).
    External services (the browser pool, the page, the R2 buckets, the D1
    database) are modelled by an oracle [World] that answers each remote
    call; the worker's own control flow (try/catch, early throws, the
    [mode] dispatch, the defaults at the request boundary) is transcribed
    as it is written, in a small state-and-exception monad. *)

From Stdlib Require Import String Ascii List Bool Arith ZArith Lia.
From Stdlib Require Import QArith Qround.
From Stdlib Require Import Strings.Byte.
Import ListNotations.
Set Warnings "-register-all".
Open Scope nat_scope.
Open Scope string_scope.
Open Scope list_scope.

(** ** JavaScript values that cross the request boundary *)

(** JSON bodies decoded by [request.json()] / queue message bodies, plus
    [undefined].  Numbers are modelled as integers: the only number the
    claims care about is the idle window. *)
Inductive jsval : Type :=
| JUndef
| JNull
| JBool (b : bool)
| JNum (n : Z)
| JStr (s : string)
| JObj (fields : list (string * jsval)).

(** JavaScript truthiness ([!!v]). *)
Definition truthy (v : jsval) : bool :=
  match v with
  | JUndef | JNull => false
  | JBool b => b
  | JNum n => negb (Z.eqb n 0)
  | JStr s => negb (String.eqb s "")
  | JObj _ => true
  end.

(** [a || b] *)
Definition js_or (a b : jsval) : jsval := if truthy a then a else b.

(** Property read [v?.k] / [v.k] on a decoded JSON value: only objects
    carry properties; on a primitive it is [undefined]. *)
Fixpoint assoc_get (k : string) (l : list (string * jsval)) : jsval :=
  match l with
  | [] => JUndef
  | (k', v) :: l' => if String.eqb k k' then v else assoc_get k l'
  end.

Definition js_get (v : jsval) (k : string) : jsval :=
  match v with
  | JObj fs => assoc_get k fs
  | _ => JUndef
  end.

(** ** Storage key generation ([WebScrapper.generateStorageKey]) *)

(** [crypto.subtle.digest] and [TextEncoder.encode] are the platform's;
    they are pure functions of their input. *)
Record Subtle : Type := {
  digest_sha1 : list byte -> list byte;
  digest_sha256 : list byte -> list byte;
  text_encode : string -> list byte
}.

Definition hex_digit (n : nat) : ascii :=
  match n with
  | 0 => "0" | 1 => "1" | 2 => "2" | 3 => "3" | 4 => "4" | 5 => "5"
  | 6 => "6" | 7 => "7" | 8 => "8" | 9 => "9" | 10 => "a" | 11 => "b"
  | 12 => "c" | 13 => "d" | 14 => "e" | _ => "f"
  end%char.

(** [b.toString(16)] for a byte [b] (0 <= b < 256): one digit below 16,
    two digits otherwise. *)
Definition toString16 (b : byte) : string :=
  let n := Byte.to_nat b in
  if Nat.ltb n 16 then String (hex_digit n) EmptyString
  else String (hex_digit (n / 16)) (String (hex_digit (n mod 16)) EmptyString).

(** [s.padStart(2, '0')] *)
Definition padStart2 (s : string) : string :=
  match String.length s with
  | 0 => "00"
  | 1 => String "0" s
  | _ => s
  end.

(** [Array.from(bytes).map(b => b.toString(16).padStart(2, '0')).join('')] *)
Definition hex_of_bytes (bs : list byte) : string :=
  String.concat "" (map (fun b => padStart2 (toString16 b)) bs).

Section Key.
Variable subtle : Subtle.

(** [`${domainHashHex}/${urlHashHex}`] *)
Definition generateStorageKey (domain url : string) : string :=
  let domainHash := digest_sha1 subtle (text_encode subtle domain) in
  let urlHash := digest_sha256 subtle (text_encode subtle url) in
  hex_of_bytes domainHash ++ "/" ++ hex_of_bytes urlHash.
End Key.

(** Splitting a key at its first ['/']: (part before, part after). *)
Fixpoint split_key (s : string) : string * string :=
  match s with
  | EmptyString => (EmptyString, EmptyString)
  | String c s' =>
      if Ascii.eqb c "/" then (EmptyString, s')
      else let (a, b) := split_key s' in (String c a, b)
  end.

(** ** Remote services and the worker state *)

(** [ActiveSession] as listed by [puppeteer.sessions]. *)
Record ActiveSession : Type := {
  sessionId : string;
  connectionId : option string  (* [undefined] when no worker is attached *)
}.

(** Outcome of [page.goto(url)]: a thrown navigation error, a [null]
    response, or a response carrying an HTTP status. *)
Inductive goto_result : Type :=
| GotoThrows (msg : string)
| GotoNull
| GotoStatus (status : Z).

(** The answers of the external collaborators during one handler run.
    [w_parseURL s] is [new URL(s)]: [None] when it throws, otherwise the
    pair ([hostname], [toString()]).  [w_newPage_ok] covers
    [browser.newPage()] and [page.setViewport(...)].  [w_json_error] is
    the message of the [SyntaxError] with which [request.json()] rejects a
    body that is not JSON (it depends on the body text). *)
Record World : Type := {
  w_API_TOKEN : string;
  w_sessions : option (list ActiveSession);
  w_random : Q;
  w_connect_ok : string -> bool;
  w_launch : option string;
  w_newPage_ok : bool;
  w_goto : string -> goto_result;
  w_idle_ok : string -> bool;
  w_content : string -> option string;
  w_screenshot : string -> option string;
  w_raw_html_put_ok : bool;
  w_screenshot_put_ok : bool;
  w_d1_ok : bool;
  w_now : Z;
  w_disconnect_ok : bool;
  w_queue_send_ok : bool;
  w_parseURL : string -> option (string * string);
  w_subtle : Subtle;
  w_json_error : string
}.

(** Observable calls made by the worker, in order. *)
Inductive event : Type :=
| EvSessions
| EvConnect (sid : string) (ok : bool)
| EvLaunch (ok : bool)
| EvNewPage
| EvGoto (url : string)
| EvIdleWait (idle : jsval)
| EvContent
| EvScreenshot
| EvR2Put (bucket : string) (key : string)
| EvD1Upsert (url : string) (r2_path : string) (lang : jsval)
| EvDisconnect
| EvQueueSend (body : jsval)
| EvAck (i : nat)
| EvRetry (i : nat).

(** SQLite values bound by D1. *)
Inductive sqlval : Type :=
| SqlNull
| SqlInt (z : Z)
| SqlText (s : string).

(** A row of [PageMetadata] (src/schema/page_metadata.sql). *)
Record PageMetadata : Type := {
  pm_id : Z;
  pm_url : string;
  pm_r2_path : string;
  pm_lang : sqlval;
  pm_page_crawled_at : option Z;
  pm_markdown_created_at : option Z;
  pm_embedding_created_at : option Z
}.

(** The handler state: the trace of remote calls, the [browser] field of
    the current [WebScrapper], the D1 table and the two R2 buckets. *)
Record St : Type := {
  trace : list event;
  browser : option string;
  page_metadata : list PageMetadata;
  raw_html_bucket : list (string * string);
  screenshot_bucket : list (string * string)
}.

(** ** The monad: state and JavaScript exceptions (by message) *)

Definition M (A : Type) : Type := World -> St -> (string + A) * St.

Definition ret {A} (a : A) : M A := fun _ s => (inr a, s).

Definition bind {A B} (m : M A) (f : A -> M B) : M B :=
  fun w s =>
    match m w s with
    | (inl e, s') => (inl e, s')
    | (inr a, s') => f a w s'
    end.

Notation "x <- m ;; k" := (bind m (fun x => k))
  (at level 61, m at next level, right associativity).
Notation "m ;; k" := (bind m (fun _ => k))
  (at level 61, right associativity).

Definition throw {A} (msg : string) : M A := fun _ s => (inl msg, s).

(** [try { m } catch (e) { h(e.message) }] *)
Definition try_catch {A} (m : M A) (h : string -> M A) : M A :=
  fun w s =>
    match m w s with
    | (inl e, s') => h e w s'
    | r => r
    end.

Definition ask : M World := fun w s => (inr w, s).

Definition modify (f : St -> St) : M unit := fun _ s => (inr tt, f s).

Definition gets {A} (f : St -> A) : M A := fun _ s => (inr (f s), s).

Definition emit (e : event) : M unit :=
  modify (fun s => {| trace := trace s ++ [e]; browser := browser s;
                      page_metadata := page_metadata s;
                      raw_html_bucket := raw_html_bucket s;
                      screenshot_bucket := screenshot_bucket s |}).

Definition set_browser (b : option string) : M unit :=
  modify (fun s => {| trace := trace s; browser := b;
                      page_metadata := page_metadata s;
                      raw_html_bucket := raw_html_bucket s;
                      screenshot_bucket := screenshot_bucket s |}).

Definition set_page_metadata (t : list PageMetadata) : M unit :=
  modify (fun s => {| trace := trace s; browser := browser s;
                      page_metadata := t;
                      raw_html_bucket := raw_html_bucket s;
                      screenshot_bucket := screenshot_bucket s |}).

(** [bucket.put(key, value)]: replaces an object stored under [key]. *)
Definition r2_put (key v : string) (b : list (string * string)) :=
  (key, v) :: filter (fun kv => negb (String.eqb (fst kv) key)) b.

Definition put_raw_html (key v : string) : M unit :=
  modify (fun s => {| trace := trace s; browser := browser s;
                      page_metadata := page_metadata s;
                      raw_html_bucket := r2_put key v (raw_html_bucket s);
                      screenshot_bucket := screenshot_bucket s |}).

Definition put_screenshot (key v : string) : M unit :=
  modify (fun s => {| trace := trace s; browser := browser s;
                      page_metadata := page_metadata s;
                      raw_html_bucket := raw_html_bucket s;
                      screenshot_bucket := r2_put key v (screenshot_bucket s) |}).

(** ** [WebScrapper] *)

(** [!v.connectionId] is false: a worker is attached to the session. *)
Definition has_connection (v : ActiveSession) : bool :=
  match connectionId v with
  | Some c => negb (String.eqb c "")
  | None => false
  end.

(** [sessions.filter(v => !v.connectionId).map(v => v.sessionId)] *)
Definition unconnected_ids (sessions : list ActiveSession) : list string :=
  map sessionId (filter (fun v => negb (has_connection v)) sessions).

(** [Math.floor(Math.random() * n)], with [Math.random()] a rational in
    [[0, 1)]. *)
Definition random_index (r : Q) (n : nat) : nat :=
  Z.to_nat (Qfloor (r * inject_Z (Z.of_nat n))).

(** [getBrowser()]: attach to a random unconnected session; if there is
    none, or the attach throws (the error is swallowed), launch a new
    browser.  A launch failure is rethrown. *)
Definition getBrowser : M unit :=
  w <- ask ;;
  emit EvSessions ;;
  sessions <- (match w_sessions w with
               | Some l => ret l
               | None => throw "Failed to list sessions"
               end) ;;
  let sessionsIds := unconnected_ids sessions in
  (if Nat.ltb 0 (length sessionsIds) then
     match nth_error sessionsIds (random_index (w_random w) (length sessionsIds)) with
     | Some sessionId =>
         if w_connect_ok w sessionId
         then emit (EvConnect sessionId true) ;; set_browser (Some sessionId)
         else emit (EvConnect sessionId false)
     | None =>
         (* [sessionsIds[i]] is [undefined]: [connect] rejects *)
         emit (EvConnect "undefined" false)
     end
   else ret tt) ;;
  b <- gets browser ;;
  match b with
  | Some _ => ret tt
  | None =>
      match w_launch w with
      | Some sid => emit (EvLaunch true) ;; set_browser (Some sid)
      | None => emit (EvLaunch false) ;; throw "Failed to launch browser"
      end
  end.

(** [cleanup()]: [await this.browser?.disconnect()]; the field is not
    cleared afterwards. *)
Definition cleanup : M unit :=
  b <- gets browser ;;
  match b with
  | Some _ =>
      emit EvDisconnect ;;
      w <- ask ;;
      if w_disconnect_ok w then ret tt else throw "Failed to disconnect"
  | None => ret tt
  end.

(** [navigateToPage(targetUrl, awaitNetworkIdle)]; the returned page is
    identified by the URL it was navigated to. *)
Definition navigateToPage (targetUrl : string) (awaitNetworkIdle : jsval) : M string :=
  b <- gets browser ;;
  match b with
  | None => throw "Browser not connected"
  | Some _ =>
      w <- ask ;;
      emit EvNewPage ;;
      (if w_newPage_ok w then ret tt else throw "Failed to open page") ;;
      emit (EvGoto targetUrl) ;;
      match w_goto w targetUrl with
      | GotoThrows msg => throw msg
      | GotoNull => throw "Failed to load page"
      | GotoStatus status =>
          if Z.eqb status 200 then
            emit (EvIdleWait awaitNetworkIdle) ;;
            (if w_idle_ok w targetUrl then ret targetUrl
             else throw "Waiting for network idle timed out")
          else throw "Failed to load page"
      end
  end.

Definition getPageContent (page : string) : M string :=
  emit EvContent ;;
  w <- ask ;;
  match w_content w page with
  | Some html => ret html
  | None => throw "Failed to read page content"
  end.

Definition getPageScreenshot (page : string) : M string :=
  emit EvScreenshot ;;
  w <- ask ;;
  match w_screenshot w page with
  | Some png => ret png
  | None => throw "Failed to take screenshot"
  end.

Definition saveHTML (r2Key html : string) : M unit :=
  emit (EvR2Put "RAW_HTML_BUCKET" (r2Key ++ ".html")) ;;
  w <- ask ;;
  if w_raw_html_put_ok w then put_raw_html (r2Key ++ ".html") html
  else throw "Failed to put object".

Definition saveScreenshot (r2Key screenshot : string) : M unit :=
  emit (EvR2Put "SCREENSHOT_BUCKET" (r2Key ++ ".png")) ;;
  w <- ask ;;
  if w_screenshot_put_ok w then put_screenshot (r2Key ++ ".png") screenshot
  else throw "Failed to put object".

(** D1's [.bind(v)]: [undefined] and objects are rejected. *)
Definition d1_bind (v : jsval) : option sqlval :=
  match v with
  | JUndef => None
  | JNull => Some SqlNull
  | JBool b => Some (SqlInt (if b then 1 else 0)%Z)
  | JNum n => Some (SqlInt n)
  | JStr s => Some (SqlText s)
  | JObj _ => None
  end.

Fixpoint find_url (u : string) (t : list PageMetadata) : option PageMetadata :=
  match t with
  | [] => None
  | r :: t' => if String.eqb (pm_url r) u then Some r else find_url u t'
  end.

(** AUTOINCREMENT: one more than the largest id in the table (rows are
    never deleted by the worker). *)
Definition next_id (t : list PageMetadata) : Z :=
  (1 + fold_right (fun r m => Z.max (pm_id r) m) 0 t)%Z.

(** The [DO UPDATE SET] clause of [savePageMetadata] applied to a row. *)
Definition update_row (now : Z) (url r2_path : string) (lang : sqlval) (r : PageMetadata) :=
  if String.eqb (pm_url r) url then
    {| pm_id := pm_id r; pm_url := pm_url r;
       pm_r2_path := r2_path; pm_lang := lang;
       pm_page_crawled_at := Some now;
       pm_markdown_created_at := pm_markdown_created_at r;
       pm_embedding_created_at := pm_embedding_created_at r |}
  else r.

(** The statement of [savePageMetadata]:
<<
INSERT INTO PageMetadata (url, r2_path, lang, page_crawled_at)
VALUES (?, ?, ?, CURRENT_TIMESTAMP)
ON CONFLICT(url) DO UPDATE SET
  r2_path = excluded.r2_path, lang = excluded.lang,
  page_crawled_at = CURRENT_TIMESTAMP
>>
    [lang] is [NOT NULL]; the columns not listed keep their value on update
    and take their default ([NULL]) on insert. *)
Definition upsert_page_metadata (now : Z) (url r2_path : string) (lang : sqlval)
    (t : list PageMetadata) : option (list PageMetadata) :=
  match lang with
  | SqlNull => None
  | _ =>
      match find_url url t with
      | Some _ => Some (map (update_row now url r2_path lang) t)
      | None =>
          Some (t ++ [{| pm_id := next_id t; pm_url := url;
                         pm_r2_path := r2_path; pm_lang := lang;
                         pm_page_crawled_at := Some now;
                         pm_markdown_created_at := None;
                         pm_embedding_created_at := None |}])
      end
  end.

Definition savePageMetadata (r2Key targetUrl : string) (lang : jsval) : M unit :=
  emit (EvD1Upsert targetUrl r2Key lang) ;;
  w <- ask ;;
  if negb (w_d1_ok w) then throw "D1 request failed" else
  match d1_bind lang with
  | None => throw "D1_TYPE_ERROR"
  | Some l =>
      t <- gets page_metadata ;;
      match upsert_page_metadata (w_now w) targetUrl r2Key l t with
      | Some t' => set_page_metadata t'
      | None => throw "NOT NULL constraint failed: PageMetadata.lang"
      end
  end.

(** [mode === s] for a string literal [s]. *)
Definition mode_is (mode : jsval) (s : string) : bool :=
  match mode with
  | JStr m => String.eqb m s
  | _ => false
  end.

(** [scrapePage(url, idle, lang, mode)]: it has no [return] statement, so
    it resolves to [undefined].  [new URL(url)] throws on anything that is
    not a string parsing as an absolute URL. *)
Definition scrapePage (url idle lang mode : jsval) : M jsval :=
  w <- ask ;;
  match url with
  | JStr u =>
      match w_parseURL w u with
      | None => throw "Invalid URL"
      | Some (domain, targetUrlString) =>
          let r2Key := generateStorageKey (w_subtle w) domain targetUrlString in
          page <- navigateToPage u idle ;;
          (if mode_is mode "html" || mode_is mode "all" then
             html <- getPageContent page ;; saveHTML r2Key html
           else ret tt) ;;
          (if mode_is mode "screenshot" || mode_is mode "all" then
             screenshot <- getPageScreenshot page ;; saveScreenshot r2Key screenshot
           else ret tt) ;;
          savePageMetadata r2Key u lang ;;
          ret JUndef
      end
  | _ => throw "Invalid URL"
  end.

(** ** The exported handlers *)

Record Request : Type := {
  req_authorization : option string;  (* the [Authorization] header *)
  req_method : string;
  req_body : option jsval              (* [None]: [request.json()] rejects *)
}.

Record Response : Type := {
  resp_status : Z;
  resp_body : list (string * jsval)
}.

(** [Response.json(obj, { status })]: [JSON.stringify] drops the keys
    whose value is [undefined]. *)
Definition response_json (fields : list (string * jsval)) (status : Z) : Response :=
  {| resp_status := status;
     resp_body := filter (fun kv => match snd kv with JUndef => false | _ => true end) fields |}.

(** [s.replace(pat, rep)] with a string pattern: the first occurrence. *)
Definition replace_first (pat rep s : string) : string :=
  match String.index 0 pat s with
  | Some i =>
      substring 0 i s ++ rep
        ++ substring (i + String.length pat) (String.length s - (i + String.length pat)) s
  | None => s
  end.

(** [const scrapper = new WebScrapper(env)] *)
Definition new_scrapper : M unit := set_browser None.

Definition DEFAULT_AWAIT_NETWORK_IDLE : jsval := JNum 1000.
Definition DEFAULT_LANG : jsval := JStr "en".
Definition DEFAULT_MODE : jsval := JStr "html".

(** [fetch(request, env, ctx)] *)
Definition fetch (request : Request) : M Response :=
  w <- ask ;;
  let apiKey := option_map (replace_first "Bearer " "") (req_authorization request) in
  let authorized := match apiKey with
                    | Some k => String.eqb k (w_API_TOKEN w)
                    | None => false
                    end in
  if negb authorized then
    ret (response_json [("message", JStr "Unauthorized"); ("status", JStr "failed")] 401)
  else if negb (String.eqb (req_method request) "POST")
          && negb (String.eqb (req_method request) "PUT") then
    ret (response_json [("message", JStr "Invalid request method"); ("status", JStr "failed")] 405)
  else
    match req_body request with
    | None => throw (w_json_error w)
    | Some body =>
        let reqUrl := js_get body "url" in
        let awaitNetworkIdle := js_or (js_get body "idle") DEFAULT_AWAIT_NETWORK_IDLE in
        let lang := js_or (js_get body "lang") DEFAULT_LANG in
        let mode := js_or (js_get body "mode") DEFAULT_MODE in
        if negb (truthy reqUrl) then
          ret (response_json [("message", JStr "URL is required"); ("status", JStr "failed")] 400)
        else if String.eqb (req_method request) "POST" then
          new_scrapper ;;
          try_catch
            (getBrowser ;;
             result <- scrapePage reqUrl awaitNetworkIdle lang mode ;;
             cleanup ;;
             ret (response_json [("message", JStr "Page scrapped successfully.");
                                 ("status", JStr "success");
                                 ("targetUrl", reqUrl);
                                 ("result", result)] 200))
            (fun e =>
               cleanup ;;
               ret (response_json [("message", JStr "Failed to scrape page");
                                   ("status", JStr "failed");
                                   ("targetUrl", reqUrl);
                                   ("error", JStr e)] 500))
        else
          try_catch
            (emit (EvQueueSend (JObj [("url", reqUrl); ("idle", awaitNetworkIdle);
                                      ("lang", lang); ("mode", mode)])) ;;
             if w_queue_send_ok w then
               ret (response_json [("message", JStr "Request Accepted");
                                   ("status", JStr "success");
                                   ("request", body)] 202)
             else throw "Failed to send message")
            (fun _ =>
               ret (response_json [("message", JStr "Failed to send message to queue");
                                   ("status", JStr "failed")] 500))
    end.

(** One iteration of the [for (const message of batch.messages)] loop:
    destructuring [{url, idle, lang, mode}] throws on [null]/[undefined]. *)
Definition queue_message (i : nat) (body : jsval) : M unit :=
  try_catch
    (match body with
     | JUndef | JNull => throw "Cannot destructure message body"
     | _ =>
         _ <- scrapePage (js_get body "url") (js_get body "idle")
                         (js_get body "lang") (js_get body "mode") ;;
         emit (EvAck i)
     end)
    (fun _ => emit (EvRetry i)).

Fixpoint queue_loop (i : nat) (messages : list jsval) : M unit :=
  match messages with
  | [] => ret tt
  | m :: ms => queue_message i m ;; queue_loop (S i) ms
  end.

(** [queue(batch, env)] *)
Definition queue (messages : list jsval) : M unit :=
  new_scrapper ;;
  getBrowser ;;
  queue_loop 0 messages ;;
  cleanup.

(** The remote services need not answer the same call the same way twice.
    [queue_in ws] is [queue] with the calls made for message [i] answered
    by [ws i], while [getBrowser] and [cleanup] are answered by the
    handler's [World]; [queue] is the case where [ws] is constant. *)
Fixpoint queue_loop_in (ws : nat -> World) (i : nat) (messages : list jsval) : M unit :=
  match messages with
  | [] => ret tt
  | m :: ms => (fun _ => queue_message i m (ws i)) ;; queue_loop_in ws (S i) ms
  end.

Definition queue_in (ws : nat -> World) (messages : list jsval) : M unit :=
  new_scrapper ;;
  getBrowser ;;
  queue_loop_in ws 0 messages ;;
  cleanup.

(** ** A concrete environment for evaluating the model *)

(** Stand-in digests (not cryptographic) used only to run examples. *)
Definition demo_subtle : Subtle := {|
  digest_sha1 := fun bs => firstn 2 bs;
  digest_sha256 := fun bs => bs;
  text_encode := String.list_byte_of_string
|}.

Definition demo_parseURL (s : string) : option (string * string) :=
  if String.eqb s "https://example.com" then Some ("example.com", "https://example.com/")
  else if String.eqb s "https://example.com/a" then Some ("example.com", "https://example.com/a")
  else None.

(** A pool with one free and one attached session; every remote call
    succeeds and every navigation answers [status]. *)
Definition demo_world (status : Z) : World := {|
  w_API_TOKEN := "secret";
  w_sessions := Some [{| sessionId := "s-busy"; connectionId := Some "c1" |};
                      {| sessionId := "s-free"; connectionId := None |}];
  w_random := 0;
  w_connect_ok := fun _ => true;
  w_launch := Some "s-new";
  w_newPage_ok := true;
  w_goto := fun _ => GotoStatus status;
  w_idle_ok := fun _ => true;
  w_content := fun _ => Some "<html></html>";
  w_screenshot := fun _ => Some "PNG";
  w_raw_html_put_ok := true;
  w_screenshot_put_ok := true;
  w_d1_ok := true;
  w_now := 42;
  w_disconnect_ok := true;
  w_queue_send_ok := true;
  w_parseURL := demo_parseURL;
  w_subtle := demo_subtle;
  w_json_error := "Unexpected token 'a' in JSON at position 0"
|}.

Definition empty_st : St := {|
  trace := []; browser := None; page_metadata := [];
  raw_html_bucket := []; screenshot_bucket := []
|}.

Definition post_request (body : jsval) : Request := {|
  req_authorization := Some "Bearer secret";
  req_method := "POST";
  req_body := Some body
|}.

(** A pool whose only session is attached elsewhere, while launching a
    new browser fails (e.g. the account's browser limit is reached). *)
Definition exhausted_world : World := {|
  w_API_TOKEN := "secret";
  w_sessions := Some [{| sessionId := "s-busy"; connectionId := Some "c1" |}];
  w_random := 0;
  w_connect_ok := fun _ => true;
  w_launch := None;
  w_newPage_ok := true;
  w_goto := fun _ => GotoStatus 200;
  w_idle_ok := fun _ => true;
  w_content := fun _ => Some "<html></html>";
  w_screenshot := fun _ => Some "PNG";
  w_raw_html_put_ok := true;
  w_screenshot_put_ok := true;
  w_d1_ok := true;
  w_now := 42;
  w_disconnect_ok := true;
  w_queue_send_ok := true;
  w_parseURL := demo_parseURL;
  w_subtle := demo_subtle;
  w_json_error := "Unexpected token 'a' in JSON at position 0"
|}.

(** A scrapper already attached to ["s-free"]. *)
Definition attached_st : St := {|
  trace := []; browser := Some "s-free"; page_metadata := [];
  raw_html_bucket := []; screenshot_bucket := []
|}.

(** A queue message or request body carrying only a URL. *)
Definition url_only_body : jsval := JObj [("url", JStr "https://example.com")].

(** A table that already holds a row for ["https://example.com"] that
    the downstream jobs have processed. *)
Definition crawled_row : PageMetadata := {|
  pm_id := 7; pm_url := "https://example.com"; pm_r2_path := "old";
  pm_lang := SqlText "fr"; pm_page_crawled_at := Some 1%Z;
  pm_markdown_created_at := Some 2%Z; pm_embedding_created_at := Some 3%Z
|}.

Definition crawled_st : St := {|
  trace := []; browser := Some "s-free"; page_metadata := [crawled_row];
  raw_html_bucket := []; screenshot_bucket := []
|}.


(** Like [demo_world 200], except that reading the page content fails. *)
Definition extraction_failure_world : World := {|
  w_API_TOKEN := "secret";
  w_sessions := Some [{| sessionId := "s-busy"; connectionId := Some "c1" |};
                      {| sessionId := "s-free"; connectionId := None |}];
  w_random := 0;
  w_connect_ok := fun _ => true;
  w_launch := Some "s-new";
  w_newPage_ok := true;
  w_goto := fun _ => GotoStatus 200;
  w_idle_ok := fun _ => true;
  w_content := fun _ => None;
  w_screenshot := fun _ => Some "PNG";
  w_raw_html_put_ok := true;
  w_screenshot_put_ok := true;
  w_d1_ok := true;
  w_now := 42;
  w_disconnect_ok := true;
  w_queue_send_ok := true;
  w_parseURL := demo_parseURL;
  w_subtle := demo_subtle;
  w_json_error := "Unexpected token 'a' in JSON at position 0"
|}.

(** Per-message answers for a batch of three: the second message's
    content cannot be read. *)
Definition second_extraction_fails (i : nat) : World :=
  if Nat.eqb i 1 then extraction_failure_world else demo_world 200.

(** ** Trace observations *)

(** A call that leaves the worker holding a browser session. *)
Definition acquires (e : event) : bool :=
  match e with
  | EvConnect _ true | EvLaunch true => true
  | _ => false
  end.

Definition releases (e : event) : bool :=
  match e with EvDisconnect => true | _ => false end.

Definition acquisitions (tr : list event) : nat := length (filter acquires tr).
Definition disconnects (tr : list event) : nat := length (filter releases tr).

Definition is_verdict (e : event) : bool :=
  match e with EvAck _ | EvRetry _ => true | _ => false end.

(** The ack/retry signals of a trace, in order. *)
Definition verdicts (tr : list event) : list event := filter is_verdict tr.

(** A computation that neither acquires nor releases a session, signals
    no ack or retry, and does not touch the [browser] field. *)
Definition session_neutral {A} (m : M A) : Prop :=
  forall w s, browser (snd (m w s)) = browser s /\
    exists tr, trace (snd (m w s)) = trace s ++ tr /\
               acquisitions tr = 0 /\ disconnects tr = 0 /\ verdicts tr = [].

(** A computation that leaves one part of the state ([proj]) as it was. *)
Definition keeps {B A} (proj : St -> B) (m : M A) : Prop :=
  forall w s, proj (snd (m w s)) = proj s.

(** Number of [PageMetadata] rows for a URL. *)
Definition count_url (u : string) (t : list PageMetadata) : nat :=
  length (filter (fun r => String.eqb (pm_url r) u) t).

(** The ack/retry signals expected for a batch starting at index [i],
    one per message: [true] for an ack, [false] for a retry. *)
Fixpoint verdict_list (i : nat) (oks : list bool) : list event :=
  match oks with
  | [] => []
  | ok :: oks' => (if ok then EvAck i else EvRetry i) :: verdict_list (S i) oks'
  end.

(** The batch contract, message by message on the shared scrapper: a
    message whose scrape succeeds is acknowledged, a message whose scrape
    fails (or whose body cannot be read) is retried, and processing goes
    on with the next message.  [batch_run ws i msgs s oks s'] relates the
    state before message [i] to the state after the batch, with the
    verdicts [oks]; the calls made for message [i] are answered by
    [ws i]. *)
Inductive batch_run (ws : nat -> World) : nat -> list jsval -> St -> list bool -> St -> Prop :=
| batch_done i s : batch_run ws i [] s [] s
| batch_ack i m ms s v s1 oks s2 :
    m <> JUndef -> m <> JNull ->
    scrapePage (js_get m "url") (js_get m "idle") (js_get m "lang") (js_get m "mode") (ws i) s
      = (inr v, s1) ->
    batch_run ws (S i) ms (snd (emit (EvAck i) (ws i) s1)) oks s2 ->
    batch_run ws i (m :: ms) s (true :: oks) s2
| batch_retry i m ms s e s1 oks s2 :
    m <> JUndef -> m <> JNull ->
    scrapePage (js_get m "url") (js_get m "idle") (js_get m "lang") (js_get m "mode") (ws i) s
      = (inl e, s1) ->
    batch_run ws (S i) ms (snd (emit (EvRetry i) (ws i) s1)) oks s2 ->
    batch_run ws i (m :: ms) s (false :: oks) s2
| batch_unreadable i m ms s oks s2 :
    m = JUndef \/ m = JNull ->
    batch_run ws (S i) ms (snd (emit (EvRetry i) (ws i) s)) oks s2 ->
    batch_run ws i (m :: ms) s (false :: oks) s2.

(** A request body with the handler's defaults written out: [idle],
    [lang] and [mode] hold [body.idle || 1000], [body.lang || "en"] and
    [body.mode || "html"]. *)
Definition with_defaults (fs : list (string * jsval)) : list (string * jsval) :=
  ("idle", js_or (assoc_get "idle" fs) DEFAULT_AWAIT_NETWORK_IDLE) ::
  ("lang", js_or (assoc_get "lang" fs) DEFAULT_LANG) ::
  ("mode", js_or (assoc_get "mode" fs) DEFAULT_MODE) :: fs.

(** ** Storage-key shape *)

(** The digits [toString(16)] produces: lowercase hexadecimal. *)
Definition is_hex_char (c : ascii) : bool :=
  existsb (Ascii.eqb c) (list_ascii_of_string "0123456789abcdef").

(** ** The first worker of src/src/index.ts (lines 1-165)

    The file starts with an earlier, query-string based version of the
    worker: its own [generateStorageKey], [getRandomSession] and [fetch].
    Its handler is written in direct style: it threads the state by hand
    and answers plain-text responses. *)
Module Legacy.

(** [generateStorageKey(domain, url)]: both parts are SHA-256 digests. *)
Definition generateStorageKey (subtle : Subtle) (domain url : string) : string :=
  hex_of_bytes (digest_sha256 subtle (text_encode subtle domain)) ++ "/" ++
  hex_of_bytes (digest_sha256 subtle (text_encode subtle url)).

(** [getRandomSession(endpoint)] on the list [puppeteer.sessions] answered:
    [""] when every session has a connection, otherwise
    [sessionsIds[Math.floor(Math.random() * sessionsIds.length)]]
    ([None]: the index is out of range and the value is [undefined]). *)
Definition getRandomSession (sessions : list ActiveSession) (random : Q) : option string :=
  let sessionsIds := unconnected_ids sessions in
  if Nat.eqb (length sessionsIds) 0 then Some ""
  else nth_error sessionsIds (random_index random (length sessionsIds)).

(** Calls of the first worker, in order. *)
Inductive event : Type :=
| LSessions
| LConnect (sid : option string) (ok : bool)
| LLaunch (ok : bool)
| LNewPage
| LGoto (url : string)
| LIdleWait (idle : Z)
| LContent
| LTitle
| LDisconnect
| LR2Put (key : string)
| LD1Run (url r2_path : string).

Record St : Type := {
  trace : list event;
  raw_html_bucket : list (string * string)
}.

Definition emit (e : event) (s : St) : St :=
  {| trace := trace s ++ [e]; raw_html_bucket := raw_html_bucket s |}.

(** The answers of the collaborators of the first worker; the fields
    mean what the [World] fields of the same name mean.  [w_connect_ok]
    takes the session id as [getRandomSession] returned it, [undefined]
    ([None]) included. *)
Record World : Type := {
  w_API_TOKEN : string;
  w_sessions : option (list ActiveSession);
  w_random : Q;
  w_connect_ok : option string -> bool;
  w_launch : option string;
  w_newPage_ok : bool;
  w_goto : string -> goto_result;
  w_idle_ok : bool;
  w_content : option string;
  w_title : option string;
  w_disconnect_ok : bool;
  w_r2_put_ok : bool;
  w_d1_ok : bool;
  w_parseURL : string -> option (string * string);
  w_subtle : Subtle
}.

(** [req_idle] is [Number(url.searchParams.get("idle"))]: [Some 0] when
    the parameter is absent, [None] for [NaN]. *)
Record Request : Type := {
  req_authorization : option string;
  req_url : option string;
  req_idle : option Z
}.

Record Response : Type := {
  resp_status : Z;
  resp_text : string
}.

Definition DEFAULT_AWAIT_NETWORK_IDLE : Z := 1000.

(** The columns of [PageMetadata] in src/schema/page_metadata.sql, and
    those the first worker's [INSERT] names. *)
Definition page_metadata_columns : list string :=
  ["id"; "url"; "r2_path"; "lang"; "page_crawled_at"; "markdown_created_at";
   "embedding_created_at"].

Definition insert_columns : list string := ["url"; "r2_path"; "created_at"; "updated_at"].

(** SQLite rejects a statement naming a column the table does not have. *)
Definition columns_exist (cols : list string) : bool :=
  forallb (fun c => existsb (String.eqb c) page_metadata_columns) cols.

(** [fetch(request, env)] of the first worker.  A rejected promise that
    the handler does not catch makes [fetch] reject: [inl]. *)
Definition fetch (request : Request) (w : World) (s : St) : (string + Response) * St :=
  let apiKey := option_map (replace_first "Bearer " "") (req_authorization request) in
  if negb (match apiKey with Some k => String.eqb k (w_API_TOKEN w) | None => false end) then
    (inr {| resp_status := 401; resp_text := "Unauthorized" |}, s)
  else
  let awaitNetworkIdle :=
    match req_idle request with
    | Some n => if Z.eqb n 0 then DEFAULT_AWAIT_NETWORK_IDLE else n
    | None => DEFAULT_AWAIT_NETWORK_IDLE
    end in
  match req_url request with
  | None => (inr {| resp_status := 400; resp_text := "URL is required" |}, s)
  | Some reqUrl =>
  if String.eqb reqUrl "" then (inr {| resp_status := 400; resp_text := "URL is required" |}, s) else
  match w_parseURL w reqUrl with
  | None => (inl "Invalid URL", s)
  | Some (domain, targetUrlString) =>
  let s := emit LSessions s in
  match w_sessions w with
  | None => (inl "Failed to list sessions", s)
  | Some sessions =>
  let sessionId := getRandomSession sessions (w_random w) in
  (* [if (sessionId !== "") try { connect } catch {}] *)
  let '(browser, s) :=
    match sessionId with
    | Some "" => (None, s)
    | _ =>
        if w_connect_ok w sessionId then (Some sessionId, emit (LConnect sessionId true) s)
        else (None, emit (LConnect sessionId false) s)
    end in
  let launched :=
    match browser with
    | Some sid => inr (sid, s)
    | None =>
        match w_launch w with
        | Some sid => inr (Some sid, emit (LLaunch true) s)
        | None => inl (emit (LLaunch false) s)
        end
    end in
  match launched with
  | inl s => (inr {| resp_status := 500; resp_text := "Failed to launch browser" |}, s)
  | inr (_, s) =>
  let s := emit LNewPage s in
  if negb (w_newPage_ok w) then (inl "Failed to open page", s) else
  let s := emit (LGoto targetUrlString) s in
  (* [if (response?.status() !== 200)
        return new Response(..., { status: response?.status() || 500 })] *)
  match w_goto w targetUrlString with
  | GotoThrows msg => (inl msg, s)
  | GotoNull => (inr {| resp_status := 500; resp_text := "Failed to load page" |}, s)
  | GotoStatus status =>
  if negb (Z.eqb status 200) then
    (inr {| resp_status := if Z.eqb status 0 then 500 else status;
            resp_text := "Failed to load page" |}, s)
  else
  let s := emit (LIdleWait awaitNetworkIdle) s in
  if negb (w_idle_ok w) then (inl "Waiting for network idle timed out", s) else
  let s := emit LContent s in
  match w_content w with
  | None => (inl "Failed to read page content", s)
  | Some html =>
  let s := emit LTitle s in
  match w_title w with
  | None => (inl "Failed to read page title", s)
  | Some title =>
  let s := emit LDisconnect s in
  if negb (w_disconnect_ok w) then (inl "Failed to disconnect", s) else
  let r2Key := generateStorageKey (w_subtle w) domain targetUrlString in
  let s := emit (LR2Put r2Key) s in
  if negb (w_r2_put_ok w) then
    (inr {| resp_status := 500; resp_text := "Failed to save HTML" |}, s)
  else
  let s := {| trace := trace s; raw_html_bucket := r2_put r2Key html (raw_html_bucket s) |} in
  let s := emit (LD1Run targetUrlString r2Key) s in
  if negb (columns_exist insert_columns && w_d1_ok w) then
    (inr {| resp_status := 500; resp_text := "Failed to save page metadata" |}, s)
  else
  (inr {| resp_status := 200;
          resp_text := "Scrapped: " ++ title ++ " - " ++ targetUrlString |}, s)
  end end end end end end end.

Definition acquires (e : event) : bool :=
  match e with LConnect _ true | LLaunch true => true | _ => false end.

Definition releases (e : event) : bool :=
  match e with LDisconnect => true | _ => false end.

End Legacy.

(** ** Environments for the examples below *)

(** A pool whose free session refuses the attach. *)
Definition refusing_world : World := {|
  w_API_TOKEN := "secret";
  w_sessions := Some [{| sessionId := "s-busy"; connectionId := Some "c1" |};
                      {| sessionId := "s-free"; connectionId := None |}];
  w_random := 0;
  w_connect_ok := fun _ => false;
  w_launch := Some "s-new";
  w_newPage_ok := true;
  w_goto := fun _ => GotoStatus 200;
  w_idle_ok := fun _ => true;
  w_content := fun _ => Some "<html></html>";
  w_screenshot := fun _ => Some "PNG";
  w_raw_html_put_ok := true;
  w_screenshot_put_ok := true;
  w_d1_ok := true;
  w_now := 42;
  w_disconnect_ok := true;
  w_queue_send_ok := true;
  w_parseURL := demo_parseURL;
  w_subtle := demo_subtle;
  w_json_error := "Unexpected token 'a' in JSON at position 0"
|}.

(** A URL parser for which the URL with and without its final ['/']
    are the same URL. *)
Definition spelling_parseURL (s : string) : option (string * string) :=
  if String.eqb s "https://example.com" || String.eqb s "https://example.com/"
  then Some ("example.com", "https://example.com/")
  else None.

(** Like [demo_world 200] with [spelling_parseURL]. *)
Definition spelling_world : World := {|
  w_API_TOKEN := "secret";
  w_sessions := Some [{| sessionId := "s-free"; connectionId := None |}];
  w_random := 0;
  w_connect_ok := fun _ => true;
  w_launch := Some "s-new";
  w_newPage_ok := true;
  w_goto := fun _ => GotoStatus 200;
  w_idle_ok := fun _ => true;
  w_content := fun _ => Some "<html></html>";
  w_screenshot := fun _ => Some "PNG";
  w_raw_html_put_ok := true;
  w_screenshot_put_ok := true;
  w_d1_ok := true;
  w_now := 42;
  w_disconnect_ok := true;
  w_queue_send_ok := true;
  w_parseURL := spelling_parseURL;
  w_subtle := demo_subtle;
  w_json_error := "Unexpected token 'a' in JSON at position 0"
|}.

(** The first worker's environment: every call succeeds and navigation
    answers [status]. *)
Definition legacy_world (status : Z) : Legacy.World := {|
  Legacy.w_API_TOKEN := "secret";
  Legacy.w_sessions := Some [{| sessionId := "s-busy"; connectionId := Some "c1" |};
                             {| sessionId := "s-free"; connectionId := None |}];
  Legacy.w_random := 0;
  Legacy.w_connect_ok := fun _ => true;
  Legacy.w_launch := Some "s-new";
  Legacy.w_newPage_ok := true;
  Legacy.w_goto := fun _ => GotoStatus status;
  Legacy.w_idle_ok := true;
  Legacy.w_content := Some "<html></html>";
  Legacy.w_title := Some "Example";
  Legacy.w_disconnect_ok := true;
  Legacy.w_r2_put_ok := true;
  Legacy.w_d1_ok := true;
  Legacy.w_parseURL := demo_parseURL;
  Legacy.w_subtle := demo_subtle
|}.

Definition legacy_empty_st : Legacy.St := {| Legacy.trace := []; Legacy.raw_html_bucket := [] |}.

(** [GET /?url=https://example.com] with the token. *)
Definition legacy_request : Legacy.Request := {|
  Legacy.req_authorization := Some "Bearer secret";
  Legacy.req_url := Some "https://example.com";
  Legacy.req_idle := Some 0%Z
|}.

(** * Proofs *)

Create HintDb neutral.

Lemma neutral_ret {A} (a : A) : session_neutral (ret a).
Proof. intros w s; split; [reflexivity | exists []; rewrite app_nil_r; auto]. Qed.

Lemma neutral_throw {A} msg : session_neutral (@throw A msg).
Proof. intros w s; split; [reflexivity | exists []; rewrite app_nil_r; auto]. Qed.

Lemma neutral_ask : session_neutral ask.
Proof. intros w s; split; [reflexivity | exists []; rewrite app_nil_r; auto]. Qed.

Lemma neutral_gets {A} (f : St -> A) : session_neutral (gets f).
Proof. intros w s; split; [reflexivity | exists []; rewrite app_nil_r; auto]. Qed.

Lemma neutral_emit e :
  acquires e = false -> releases e = false -> is_verdict e = false ->
  session_neutral (emit e).
Proof.
  intros Ha Hr Hv w s; split; [reflexivity|].
  exists [e]; unfold verdicts; cbn; rewrite Ha, Hr, Hv; auto.
Qed.

Lemma neutral_set_page_metadata t : session_neutral (set_page_metadata t).
Proof. intros w s; split; [reflexivity | exists []; rewrite app_nil_r; auto]. Qed.

Lemma neutral_put_raw_html k v : session_neutral (put_raw_html k v).
Proof. intros w s; split; [reflexivity | exists []; rewrite app_nil_r; auto]. Qed.

Lemma neutral_put_screenshot k v : session_neutral (put_screenshot k v).
Proof. intros w s; split; [reflexivity | exists []; rewrite app_nil_r; auto]. Qed.

Lemma acquisitions_app a b : acquisitions (a ++ b) = acquisitions a + acquisitions b.
Proof. unfold acquisitions; rewrite filter_app, length_app; reflexivity. Qed.

Lemma disconnects_app a b : disconnects (a ++ b) = disconnects a + disconnects b.
Proof. unfold disconnects; rewrite filter_app, length_app; reflexivity. Qed.

Lemma verdicts_app a b : verdicts (a ++ b) = verdicts a ++ verdicts b.
Proof. unfold verdicts; apply filter_app. Qed.

Lemma neutral_bind {A B} (m : M A) (f : A -> M B) :
  session_neutral m -> (forall a, session_neutral (f a)) -> session_neutral (bind m f).
Proof.
  intros Hm Hf w s; unfold bind.
  destruct (Hm w s) as [Hb1 [tr1 [Ht1 [Ha1 [Hd1 Hv1]]]]].
  destruct (m w s) as [[e|a] s1] eqn:E; cbn in *.
  - split; [exact Hb1 | exists tr1; repeat split; assumption].
  - destruct (Hf a w s1) as [Hb2 [tr2 [Ht2 [Ha2 [Hd2 Hv2]]]]].
    split; [congruence|].
    exists (tr1 ++ tr2); rewrite Ht2, Ht1, <- app_assoc, acquisitions_app, disconnects_app,
      verdicts_app, Hv1, Hv2.
    split; [reflexivity | split; [lia | split; [lia | reflexivity]]].
Qed.

Lemma neutral_try_catch {A} (m : M A) (h : string -> M A) :
  session_neutral m -> (forall e, session_neutral (h e)) -> session_neutral (try_catch m h).
Proof.
  intros Hm Hh w s; unfold try_catch.
  destruct (Hm w s) as [Hb1 [tr1 [Ht1 [Ha1 [Hd1 Hv1]]]]].
  destruct (m w s) as [[e|a] s1] eqn:E; cbn in *.
  - destruct (Hh e w s1) as [Hb2 [tr2 [Ht2 [Ha2 [Hd2 Hv2]]]]].
    split; [congruence|].
    exists (tr1 ++ tr2); rewrite Ht2, Ht1, <- app_assoc, acquisitions_app, disconnects_app,
      verdicts_app, Hv1, Hv2.
    split; [reflexivity | split; [lia | split; [lia | reflexivity]]].
  - split; [exact Hb1 | exists tr1; repeat split; assumption].
Qed.

#[local] Hint Resolve neutral_ret neutral_throw neutral_ask neutral_gets
  neutral_set_page_metadata neutral_put_raw_html neutral_put_screenshot : neutral.
#[local] Hint Extern 1 (session_neutral (emit _)) =>
  apply neutral_emit; reflexivity : neutral.

(** Decompose a computation built from the monad's combinators. *)
Ltac neutral_solve :=
  repeat match goal with
  | |- session_neutral (bind _ _) => apply neutral_bind; [|intro]
  | |- session_neutral (try_catch _ _) => apply neutral_try_catch; [|intro]
  | |- session_neutral (match ?x with _ => _ end) => destruct x
  | |- session_neutral (if ?b then _ else _) => destruct b
  | |- session_neutral (let _ := _ in _) => cbv zeta
  end; auto with neutral.

Lemma navigateToPage_neutral u idle : session_neutral (navigateToPage u idle).
Proof. unfold navigateToPage; neutral_solve. Qed.

Lemma savePageMetadata_neutral k u lang : session_neutral (savePageMetadata k u lang).
Proof. unfold savePageMetadata; neutral_solve. Qed.

Lemma scrapePage_neutral url idle lang mode :
  session_neutral (scrapePage url idle lang mode).
Proof.
  unfold scrapePage, getPageContent, getPageScreenshot, saveHTML, saveScreenshot.
  neutral_solve; auto using navigateToPage_neutral, savePageMetadata_neutral.
Qed.

(** Running [getBrowser] on a fresh scrapper: it either acquires one
    session and succeeds, or acquires none and throws. *)
Lemma getBrowser_spec w s :
  browser s = None ->
  exists tr,
    trace (snd (getBrowser w s)) = trace s ++ tr /\
    disconnects tr = 0 /\ verdicts tr = [] /\
    page_metadata (snd (getBrowser w s)) = page_metadata s /\
    ((fst (getBrowser w s) = inr tt /\ acquisitions tr = 1 /\
      exists sid, browser (snd (getBrowser w s)) = Some sid) \/
     ((exists e, fst (getBrowser w s) = inl e) /\ acquisitions tr = 0 /\
      browser (snd (getBrowser w s)) = None)).
Proof.
  intros Hs; unfold getBrowser, bind, ask, emit, modify, gets, set_browser, ret, throw.
  cbn.
  repeat match goal with
  | |- context [match ?x with _ => _ end] =>
      lazymatch x with
      | browser s => rewrite Hs
      | _ => lazymatch type of x with
             | bool => destruct x eqn:?
             | option _ => destruct x eqn:?
             end
      end; cbn
  end;
  cbn; eexists; (split; [rewrite <- ?app_assoc; reflexivity|]); cbn;
  repeat split; eauto.
Qed.

Lemma cleanup_none w s : browser s = None -> cleanup w s = (inr tt, s).
Proof. intros Hs; unfold cleanup, bind, gets; rewrite Hs; reflexivity. Qed.

Lemma cleanup_some w s sid :
  browser s = Some sid ->
  cleanup w s =
    ((if w_disconnect_ok w then inr tt else inl "Failed to disconnect"),
     {| trace := trace s ++ [EvDisconnect]; browser := browser s;
        page_metadata := page_metadata s; raw_html_bucket := raw_html_bucket s;
        screenshot_bucket := screenshot_bucket s |}).
Proof.
  intros Hs; unfold cleanup, bind, gets, emit, modify, ask, ret, throw; rewrite Hs; cbn.
  destruct (w_disconnect_ok w); rewrite Hs; reflexivity.
Qed.




(** ** Storage keys *)

Lemma hex_byte_digits b :
  padStart2 (toString16 b) =
  String (hex_digit (Byte.to_nat b / 16)) (String (hex_digit (Byte.to_nat b mod 16)) EmptyString).
Proof.
  unfold toString16, padStart2.
  destruct (Nat.ltb (Byte.to_nat b) 16) eqn:E; [|reflexivity].
  apply Nat.ltb_lt in E.
  rewrite Nat.div_small, Nat.mod_small by exact E; reflexivity.
Qed.

Lemma hex_digit_inj a b : a < 16 -> b < 16 -> hex_digit a = hex_digit b -> a = b.
Proof.
  intros Ha Hb H.
  repeat (destruct a as [|a]; try lia);
  repeat (destruct b as [|b]; try lia);
  cbn in H; first [reflexivity | discriminate H].
Qed.

Lemma hex_digit_not_slash n : hex_digit n <> "/"%char.
Proof. do 16 (destruct n as [|n]; [discriminate|]); discriminate. Qed.

Lemma hex_byte_inj b1 b2 : padStart2 (toString16 b1) = padStart2 (toString16 b2) -> b1 = b2.
Proof.
  rewrite !hex_byte_digits; intros H.
  assert (Hq : hex_digit (Byte.to_nat b1 / 16) = hex_digit (Byte.to_nat b2 / 16))
    by exact (f_equal (fun s => match s with String c _ => c | _ => "0"%char end) H).
  assert (Hr : hex_digit (Byte.to_nat b1 mod 16) = hex_digit (Byte.to_nat b2 mod 16))
    by exact (f_equal (fun s => match s with String _ (String c _) => c | _ => "0"%char end) H).
  clear H.
  pose proof (Byte.to_nat_bounded b1); pose proof (Byte.to_nat_bounded b2).
  apply hex_digit_inj in Hq; [|apply Nat.Div0.div_lt_upper_bound; lia ..].
  apply hex_digit_inj in Hr; [|apply Nat.mod_upper_bound; lia ..].
  assert (Byte.to_nat b1 = Byte.to_nat b2).
  { rewrite (Nat.div_mod_eq (Byte.to_nat b1) 16), (Nat.div_mod_eq (Byte.to_nat b2) 16); lia. }
  apply (f_equal Byte.of_nat) in H1; rewrite !Byte.of_to_nat in H1; congruence.
Qed.

Lemma hex_of_bytes_cons b bs :
  hex_of_bytes (b :: bs) =
  String (hex_digit (Byte.to_nat b / 16))
    (String (hex_digit (Byte.to_nat b mod 16)) (hex_of_bytes bs)).
Proof.
  unfold hex_of_bytes; cbn [map]; rewrite hex_byte_digits.
  destruct bs; reflexivity.
Qed.

Lemma hex_of_bytes_inj bs1 bs2 : hex_of_bytes bs1 = hex_of_bytes bs2 -> bs1 = bs2.
Proof.
  revert bs2; induction bs1 as [|b1 bs1 IH]; intros [|b2 bs2] H.
  - reflexivity.
  - rewrite hex_of_bytes_cons in H; discriminate.
  - rewrite hex_of_bytes_cons in H; discriminate.
  - rewrite !hex_of_bytes_cons in H.
    injection H as Hq Hr Ht.
    f_equal; [|apply IH; exact Ht].
    apply hex_byte_inj; rewrite !hex_byte_digits.
    f_equal; [exact Hq | f_equal; exact Hr].
Qed.

Lemma split_key_hex a b : split_key (hex_of_bytes a ++ "/" ++ b) = (hex_of_bytes a, b).
Proof.
  induction a as [|x a IH].
  - reflexivity.
  - rewrite hex_of_bytes_cons; cbn [String.append split_key] in *.
    destruct (Ascii.eqb (hex_digit (Byte.to_nat x / 16)) "/") eqn:E1;
      [apply Ascii.eqb_eq, hex_digit_not_slash in E1; contradiction|].
    destruct (Ascii.eqb (hex_digit (Byte.to_nat x mod 16)) "/") eqn:E2;
      [apply Ascii.eqb_eq, hex_digit_not_slash in E2; contradiction|].
    rewrite IH; reflexivity.
Qed.

(** Claim C2: [generateStorageKey] is a pure function of (domain, url)
    (it reads no state and no [World]); its part before the ['/'] is the
    hex of the domain digest and the part after it the hex of the URL
    digest.  For one domain and two URLs whose SHA-256 digests differ, the
    domain parts coincide and the URL parts differ. *)
Theorem generateStorageKey_parts (subtle : Subtle) (domain url1 url2 : string) :
  digest_sha256 subtle (text_encode subtle url1) <>
    digest_sha256 subtle (text_encode subtle url2) ->
  split_key (generateStorageKey subtle domain url1) =
    (hex_of_bytes (digest_sha1 subtle (text_encode subtle domain)),
     hex_of_bytes (digest_sha256 subtle (text_encode subtle url1))) /\
  fst (split_key (generateStorageKey subtle domain url1)) =
    fst (split_key (generateStorageKey subtle domain url2)) /\
  snd (split_key (generateStorageKey subtle domain url1)) <>
    snd (split_key (generateStorageKey subtle domain url2)).
Proof.
  intros Hnc; unfold generateStorageKey; rewrite !split_key_hex; cbn [fst snd].
  split; [reflexivity|]; split; [reflexivity|].
  intros H; apply Hnc, hex_of_bytes_inj, H.
Qed.

Lemma generateStorageKey_parts_witness :
  digest_sha256 demo_subtle (text_encode demo_subtle "https://example.com/") <>
    digest_sha256 demo_subtle (text_encode demo_subtle "https://example.com/a") /\
  split_key (generateStorageKey demo_subtle "example.com" "https://example.com/") =
    (hex_of_bytes (digest_sha1 demo_subtle (text_encode demo_subtle "example.com")),
     hex_of_bytes (digest_sha256 demo_subtle (text_encode demo_subtle "https://example.com/"))) /\
  fst (split_key (generateStorageKey demo_subtle "example.com" "https://example.com/")) =
    fst (split_key (generateStorageKey demo_subtle "example.com" "https://example.com/a")) /\
  snd (split_key (generateStorageKey demo_subtle "example.com" "https://example.com/")) <>
    snd (split_key (generateStorageKey demo_subtle "example.com" "https://example.com/a")).
Proof.
  assert (H : digest_sha256 demo_subtle (text_encode demo_subtle "https://example.com/") <>
              digest_sha256 demo_subtle (text_encode demo_subtle "https://example.com/a"))
    by (vm_compute; discriminate).
  split; [exact H | apply generateStorageKey_parts; exact H].
Defined.

(** [Math.floor(Math.random() * n)] is a valid index. *)
Lemma random_index_lt r n :
  (0 <= r)%Q -> (r < 1)%Q -> (0 < n)%nat -> (random_index r n < n)%nat.
Proof.
  intros H0 H1 Hn; unfold random_index.
  set (x := (r * inject_Z (Z.of_nat n))%Q).
  assert (Hpos : (0 < inject_Z (Z.of_nat n))%Q)
    by (change 0%Q with (inject_Z 0); rewrite <- Zlt_Qlt; lia).
  assert (Hx : (x < inject_Z (Z.of_nat n))%Q).
  { unfold x. apply Qlt_le_trans with (1 * inject_Z (Z.of_nat n))%Q.
    - apply Qmult_lt_compat_r; assumption.
    - rewrite Qmult_1_l; apply Qle_refl. }
  assert (Hf : (Qfloor x < Z.of_nat n)%Z).
  { rewrite Zlt_Qlt. eapply Qle_lt_trans; [apply Qfloor_le | exact Hx]. }
  assert (Hf0 : (0 <= Qfloor x)%Z).
  { change 0%Z with (Qfloor 0). apply Qfloor_resp_le, Qmult_le_0_compat; [assumption | apply Qlt_le_weak, Hpos]. }
  lia.
Qed.

(** Claim C6: with a fresh scrapper, if the pool lists at least one
    session without an active connection, the session [getBrowser] tries
    to attach to is one of those: right after listing the sessions, its one
    [connect] call goes to that session [sid].  When this attach succeeds
    it is the last call: no browser is launched and the scrapper holds
    [sid].  If every listed session has a connection (or the list is
    empty), no attach is attempted and a new browser is launched. *)
Theorem getBrowser_selects w st sessions :
  w_sessions w = Some sessions -> browser st = None ->
  (0 <= w_random w)%Q -> (w_random w < 1)%Q ->
  (unconnected_ids sessions <> [] ->
   exists sid, In sid (unconnected_ids sessions) /\
     (exists rest, trace (snd (getBrowser w st)) =
        trace st ++ EvSessions :: EvConnect sid (w_connect_ok w sid) :: rest) /\
     (w_connect_ok w sid = true ->
      fst (getBrowser w st) = inr tt /\
      trace (snd (getBrowser w st)) = trace st ++ [EvSessions; EvConnect sid true] /\
      browser (snd (getBrowser w st)) = Some sid)) /\
  (unconnected_ids sessions = [] ->
   trace (snd (getBrowser w st)) = trace st ++ [EvSessions; EvLaunch (if w_launch w then true else false)] /\
   browser (snd (getBrowser w st)) = w_launch w).
Proof.
  intros Hss Hb H0 H1.
  unfold getBrowser, bind, ask, emit, modify, gets, set_browser, ret, throw.
  rewrite Hss; cbn [fst snd trace browser].
  split.
  - intros Hne.
    assert (Hlt : random_index (w_random w) (length (unconnected_ids sessions))
                  < length (unconnected_ids sessions)).
    { apply random_index_lt; auto. destruct (unconnected_ids sessions); [contradiction | cbn; lia]. }
    assert (Hl : Nat.ltb 0 (length (unconnected_ids sessions)) = true) by (apply Nat.ltb_lt; lia).
    destruct (nth_error (unconnected_ids sessions)
                (random_index (w_random w) (length (unconnected_ids sessions)))) as [sid|] eqn:E.
    + exists sid; split; [eapply nth_error_In; eassumption|].
      rewrite Hl.
      destruct (w_connect_ok w sid) eqn:Hc; cbn.
      * rewrite <- ?app_assoc; split; [exists []; reflexivity | auto].
      * rewrite Hb; split; [|discriminate].
        destruct (w_launch w); cbn; rewrite <- ?app_assoc; cbn; eexists; reflexivity.
    + apply nth_error_None in E; lia.
  - intros He; rewrite He; cbn.
    rewrite Hb; destruct (w_launch w); cbn; rewrite <- ?app_assoc; auto.
Qed.

Lemma getBrowser_selects_witness :
  (0 <= w_random (demo_world 200))%Q /\ (w_random (demo_world 200) < 1)%Q /\
  (unconnected_ids [{| sessionId := "s-busy"; connectionId := Some "c1" |};
                    {| sessionId := "s-free"; connectionId := None |}] <> [] ->
   exists sid, In sid (unconnected_ids [{| sessionId := "s-busy"; connectionId := Some "c1" |};
                                        {| sessionId := "s-free"; connectionId := None |}]) /\
     (exists rest, trace (snd (getBrowser (demo_world 200) empty_st)) =
        trace empty_st ++ EvSessions :: EvConnect sid (w_connect_ok (demo_world 200) sid) :: rest) /\
     (w_connect_ok (demo_world 200) sid = true ->
      fst (getBrowser (demo_world 200) empty_st) = inr tt /\
      trace (snd (getBrowser (demo_world 200) empty_st)) =
        trace empty_st ++ [EvSessions; EvConnect sid true] /\
      browser (snd (getBrowser (demo_world 200) empty_st)) = Some sid)) /\
  (unconnected_ids [{| sessionId := "s-busy"; connectionId := Some "c1" |};
                    {| sessionId := "s-free"; connectionId := None |}] = [] ->
   trace (snd (getBrowser (demo_world 200) empty_st)) =
     trace empty_st ++ [EvSessions; EvLaunch (if w_launch (demo_world 200) then true else false)] /\
   browser (snd (getBrowser (demo_world 200) empty_st)) = w_launch (demo_world 200)).
Proof.
  assert (H0 : (0 <= w_random (demo_world 200))%Q) by (vm_compute; discriminate).
  assert (H1 : (w_random (demo_world 200) < 1)%Q) by (vm_compute; reflexivity).
  split; [exact H0|]; split; [exact H1|].
  apply getBrowser_selects; [reflexivity | reflexivity | exact H0 | exact H1].
Defined.

Lemma find_url_url u t r : find_url u t = Some r -> pm_url r = u.
Proof.
  induction t as [|r0 t IH]; cbn; [discriminate|].
  destruct (String.eqb (pm_url r0) u) eqn:E; [|exact IH].
  intros H; injection H as <-; apply String.eqb_eq, E.
Qed.

Lemma find_url_map f u t :
  (forall r, pm_url (f r) = pm_url r) ->
  find_url u (map f t) = option_map f (find_url u t).
Proof.
  intros Hf; induction t as [|r t IH]; cbn; [reflexivity|].
  rewrite Hf; destruct (String.eqb (pm_url r) u); [reflexivity | exact IH].
Qed.

Lemma upsert_existing now u k l t r :
  l <> SqlNull -> find_url u t = Some r ->
  upsert_page_metadata now u k l t = Some (map (update_row now u k l) t).
Proof.
  intros Hl Hr; unfold upsert_page_metadata; rewrite Hr.
  destruct l; [contradiction | reflexivity | reflexivity].
Qed.

Lemma update_row_url now u k l r : pm_url (update_row now u k l r) = pm_url r.
Proof. unfold update_row; destruct (String.eqb (pm_url r) u); reflexivity. Qed.

(** Claim C4: an upsert on a URL already in the table keeps that row's
    [id], [markdown_created_at] and [embedding_created_at] and leaves the
    other URLs' rows as they were, whether or not the call succeeds; when
    it succeeds, the row's [r2_path], [lang] and [page_crawled_at] are the
    new key, language and the current timestamp. *)
Theorem savePageMetadata_keeps_downstream w st r2Key u lang r :
  find_url u (page_metadata st) = Some r ->
  exists r',
    find_url u (page_metadata (snd (savePageMetadata r2Key u lang w st))) = Some r' /\
    pm_id r' = pm_id r /\
    pm_markdown_created_at r' = pm_markdown_created_at r /\
    pm_embedding_created_at r' = pm_embedding_created_at r /\
    (forall u', u' <> u ->
       find_url u' (page_metadata (snd (savePageMetadata r2Key u lang w st))) =
       find_url u' (page_metadata st)) /\
    length (page_metadata (snd (savePageMetadata r2Key u lang w st))) =
      length (page_metadata st) /\
    (fst (savePageMetadata r2Key u lang w st) = inr tt ->
       pm_r2_path r' = r2Key /\ d1_bind lang = Some (pm_lang r') /\
       pm_page_crawled_at r' = Some (w_now w)).
Proof.
  intros Hr.
  assert (Hsame : forall e : string, exists r', find_url u (page_metadata st) = Some r' /\
    pm_id r' = pm_id r /\
    pm_markdown_created_at r' = pm_markdown_created_at r /\
    pm_embedding_created_at r' = pm_embedding_created_at r /\
    (forall u', u' <> u -> find_url u' (page_metadata st) = find_url u' (page_metadata st)) /\
    length (page_metadata st) = length (page_metadata st) /\
    ((inl e : string + unit) = inr tt -> pm_r2_path r' = r2Key /\ d1_bind lang = Some (pm_lang r') /\
       pm_page_crawled_at r' = Some (w_now w)))
    by (intros e; exists r; repeat split; auto; discriminate).
  unfold savePageMetadata, bind, emit, modify, ask, gets, throw, set_page_metadata; cbn.
  destruct (w_d1_ok w); cbn; [|exact (Hsame _)].
  destruct (d1_bind lang) as [l|] eqn:Hb; cbn; [|exact (Hsame _)].
  destruct (upsert_page_metadata (w_now w) u r2Key l (page_metadata st)) as [t'|] eqn:Hu;
    cbn; [|exact (Hsame _)].
  assert (Hl : l <> SqlNull) by (intros ->; discriminate Hu).
  rewrite (upsert_existing _ _ _ _ _ r Hl Hr) in Hu; injection Hu as <-.
  exists (update_row (w_now w) u r2Key l r).
  rewrite find_url_map, Hr by apply update_row_url; cbn.
  pose proof (find_url_url _ _ _ Hr) as Hu.
  unfold update_row; rewrite Hu, String.eqb_refl; cbn.
  repeat split; auto.
  - intros u' Hne. rewrite find_url_map by apply update_row_url.
    destruct (find_url u' (page_metadata st)) as [r0|] eqn:E; [|reflexivity]; cbn.
    apply find_url_url in E; subst u'.
    unfold update_row; destruct (String.eqb (pm_url r0) u) eqn:E'; [|reflexivity].
    apply String.eqb_eq in E'; contradiction.
  - apply length_map.
Qed.

Lemma savePageMetadata_keeps_downstream_witness :
  find_url "https://example.com" (page_metadata crawled_st) = Some crawled_row /\
  exists r',
    find_url "https://example.com"
      (page_metadata (snd (savePageMetadata "k" "https://example.com" (JStr "en")
                             (demo_world 200) crawled_st))) = Some r' /\
    pm_id r' = pm_id crawled_row /\
    pm_markdown_created_at r' = pm_markdown_created_at crawled_row /\
    pm_embedding_created_at r' = pm_embedding_created_at crawled_row /\
    (forall u', u' <> "https://example.com" ->
       find_url u' (page_metadata (snd (savePageMetadata "k" "https://example.com" (JStr "en")
                                          (demo_world 200) crawled_st))) =
       find_url u' (page_metadata crawled_st)) /\
    length (page_metadata (snd (savePageMetadata "k" "https://example.com" (JStr "en")
                                  (demo_world 200) crawled_st))) =
      length (page_metadata crawled_st) /\
    (fst (savePageMetadata "k" "https://example.com" (JStr "en") (demo_world 200) crawled_st)
       = inr tt ->
     pm_r2_path r' = "k" /\ d1_bind (JStr "en") = Some (pm_lang r') /\
     pm_page_crawled_at r' = Some (w_now (demo_world 200))).
Proof.
  assert (H : find_url "https://example.com" (page_metadata crawled_st) = Some crawled_row)
    by reflexivity.
  split; [exact H | apply savePageMetadata_keeps_downstream; exact H].
Defined.

Lemma keeps_bind {C A B} (proj : St -> C) (m : M A) (f : A -> M B) :
  keeps proj m -> (forall a, keeps proj (f a)) -> keeps proj (bind m f).
Proof.
  intros Hm Hf w s; unfold bind; specialize (Hm w s).
  destruct (m w s) as [[e|a] s1]; cbn in *; [exact Hm | rewrite Hf; exact Hm].
Qed.

Ltac keeps_solve :=
  repeat match goal with
  | |- keeps _ (bind _ _) => apply keeps_bind; [|intro]
  | |- keeps _ (match ?x with _ => _ end) => destruct x
  | |- keeps _ (if ?b then _ else _) => destruct b
  end; try (intros ? ?; reflexivity).

Lemma navigateToPage_keeps u idle :
  keeps page_metadata (navigateToPage u idle) /\
  keeps raw_html_bucket (navigateToPage u idle) /\
  keeps screenshot_bucket (navigateToPage u idle).
Proof. unfold navigateToPage; repeat split; keeps_solve. Qed.

Lemma bind_inr {A B} (m : M A) (f : A -> M B) w s b s' :
  bind m f w s = (inr b, s') -> exists a s1, m w s = (inr a, s1) /\ f a w s1 = (inr b, s').
Proof.
  unfold bind; destruct (m w s) as [[e|a] s1]; [discriminate|]; eauto.
Qed.

Lemma keeps_inr {C A} (proj : St -> C) (m : M A) w s a s' :
  keeps proj m -> m w s = (inr a, s') -> proj s' = proj s.
Proof. intros K H; specialize (K w s); rewrite H in K; exact K. Qed.

Lemma savePageMetadata_ok k u lang w s s' :
  savePageMetadata k u lang w s = (inr tt, s') ->
  exists l, w_d1_ok w = true /\ d1_bind lang = Some l /\
    upsert_page_metadata (w_now w) u k l (page_metadata s) = Some (page_metadata s').
Proof.
  unfold savePageMetadata, bind, emit, modify, ask, gets, throw, set_page_metadata; cbn.
  destruct (w_d1_ok w); cbn; [|discriminate].
  destruct (d1_bind lang) as [l|]; cbn; [|discriminate].
  destruct (upsert_page_metadata _ _ _ _ _) eqn:E; cbn; [|discriminate].
  intros H; injection H as <-; exists l; auto.
Qed.

Lemma scrapePage_ok_upsert w st u idle lang mode v st' :
  scrapePage (JStr u) idle lang mode w st = (inr v, st') ->
  exists domain href l,
    w_parseURL w u = Some (domain, href) /\ d1_bind lang = Some l /\
    upsert_page_metadata (w_now w) u (generateStorageKey (w_subtle w) domain href) l
      (page_metadata st) = Some (page_metadata st').
Proof.
  unfold scrapePage; intros H.
  apply bind_inr in H as [w' [s0 [H0 H]]]; injection H0 as <- <-.
  destruct (w_parseURL w u) as [[domain href]|]; [|discriminate]; cbv zeta in H.
  apply bind_inr in H as [page [s1 [H1 H]]].
  apply bind_inr in H as [[] [s2 [H2 H]]].
  apply bind_inr in H as [[] [s3 [H3 H]]].
  apply bind_inr in H as [[] [s4 [H4 H]]].
  injection H as _ <-.
  apply (keeps_inr page_metadata) in H1; [|apply navigateToPage_keeps].
  match type of H2 with ?m _ _ = _ =>
    apply (keeps_inr page_metadata) in H2; [|unfold getPageContent, saveHTML; keeps_solve] end.
  match type of H3 with ?m _ _ = _ =>
    apply (keeps_inr page_metadata) in H3; [|unfold getPageScreenshot, saveScreenshot; keeps_solve] end.
  destruct (savePageMetadata_ok _ _ _ _ _ _ H4) as [l [_ [Hl Hu]]].
  exists domain, href, l; split; [reflexivity|]; split; [exact Hl|].
  rewrite H3, H2, H1 in Hu; exact Hu.
Qed.

Lemma count_url_map f u t :
  (forall r, pm_url (f r) = pm_url r) -> count_url u (map f t) = count_url u t.
Proof.
  intros Hf; unfold count_url; induction t as [|r t IH]; cbn; [reflexivity|].
  rewrite Hf; destruct (String.eqb (pm_url r) u); cbn; rewrite IH; reflexivity.
Qed.

Lemma find_url_none_count u t : find_url u t = None -> count_url u t = 0.
Proof.
  unfold count_url; induction t as [|r t IH]; cbn; [reflexivity|].
  destruct (String.eqb (pm_url r) u); [discriminate | exact IH].
Qed.

Lemma find_url_some_count u t r : find_url u t = Some r -> 1 <= count_url u t.
Proof.
  unfold count_url; induction t as [|r0 t IH]; cbn; [discriminate|].
  destruct (String.eqb (pm_url r0) u); cbn; [lia | exact IH].
Qed.

Lemma find_url_app_new u t r : find_url u t = None -> pm_url r = u -> find_url u (t ++ [r]) = Some r.
Proof.
  intros Hn Hr; induction t as [|r0 t IH]; cbn in *.
  - rewrite Hr, String.eqb_refl; reflexivity.
  - destruct (String.eqb (pm_url r0) u); [discriminate | exact (IH Hn)].
Qed.

(** After a successful upsert the URL has exactly one row. *)
Lemma upsert_single_row now u k l t t' :
  count_url u t <= 1 -> upsert_page_metadata now u k l t = Some t' ->
  count_url u t' = 1 /\ exists r, find_url u t' = Some r.
Proof.
  intros Hc Hu.
  assert (Hl : l <> SqlNull) by (intros ->; discriminate Hu).
  destruct (find_url u t) as [r|] eqn:E.
  - rewrite (upsert_existing _ _ _ _ _ _ Hl E) in Hu; injection Hu as <-.
    rewrite count_url_map by apply update_row_url.
    pose proof (find_url_some_count _ _ _ E).
    split; [lia|].
    rewrite find_url_map, E by apply update_row_url; cbn; eauto.
  - unfold upsert_page_metadata in Hu; rewrite E in Hu.
    destruct l; [contradiction| |]; injection Hu as <-;
    (unfold count_url; rewrite filter_app, length_app; cbn;
     rewrite String.eqb_refl; cbn; fold (count_url u t);
     rewrite (find_url_none_count _ _ E);
     split; [reflexivity|]; eexists; apply find_url_app_new; [exact E | reflexivity]).
Qed.

(** Claim C5: two successful runs of [scrapePage] with the same request,
    starting from a table where the URL has at most one row (the [UNIQUE]
    constraint), leave exactly one row for it; the second run adds no row
    and updates the first run's row in place (same [id]) with its key,
    language and crawl time. *)
Theorem scrapePage_twice_updates_in_place w1 w2 st st1 st2 u idle lang mode v1 v2 :
  count_url u (page_metadata st) <= 1 ->
  scrapePage (JStr u) idle lang mode w1 st = (inr v1, st1) ->
  scrapePage (JStr u) idle lang mode w2 st1 = (inr v2, st2) ->
  count_url u (page_metadata st2) = 1 /\
  length (page_metadata st2) = length (page_metadata st1) /\
  exists r1 r2 domain href,
    find_url u (page_metadata st1) = Some r1 /\
    find_url u (page_metadata st2) = Some r2 /\
    pm_id r2 = pm_id r1 /\
    w_parseURL w2 u = Some (domain, href) /\
    pm_r2_path r2 = generateStorageKey (w_subtle w2) domain href /\
    d1_bind lang = Some (pm_lang r2) /\
    pm_page_crawled_at r2 = Some (w_now w2).
Proof.
  intros Hc H1 H2.
  destruct (scrapePage_ok_upsert _ _ _ _ _ _ _ _ H1) as [d1 [h1 [l1 [_ [_ U1]]]]].
  destruct (scrapePage_ok_upsert _ _ _ _ _ _ _ _ H2) as [d2 [h2 [l2 [P2 [L2 U2]]]]].
  destruct (upsert_single_row _ _ _ _ _ _ Hc U1) as [C1 [r1 F1]].
  assert (Hl2 : l2 <> SqlNull) by (intros ->; discriminate U2).
  rewrite (upsert_existing _ _ _ _ _ _ Hl2 F1) in U2; injection U2 as U2.
  split; [rewrite <- U2, count_url_map by apply update_row_url; exact C1|].
  split; [rewrite <- U2; apply length_map|].
  exists r1, (update_row (w_now w2) u (generateStorageKey (w_subtle w2) d2 h2) l2 r1), d2, h2.
  pose proof (find_url_url _ _ _ F1) as Hu1.
  rewrite <- U2, find_url_map, F1 by apply update_row_url; cbn [option_map].
  unfold update_row; rewrite Hu1, String.eqb_refl; cbn.
  repeat split; auto.
Qed.

Lemma scrapePage_twice_updates_in_place_witness :
  let run := scrapePage (JStr "https://example.com") (JNum 1000) (JStr "en") (JStr "all") in
  let st1 := snd (run (demo_world 200) attached_st) in
  let st2 := snd (run (demo_world 200) st1) in
  count_url "https://example.com" (page_metadata attached_st) <= 1 /\
  run (demo_world 200) attached_st = (inr JUndef, st1) /\
  run (demo_world 200) st1 = (inr JUndef, st2) /\
  count_url "https://example.com" (page_metadata st2) = 1 /\
  length (page_metadata st2) = length (page_metadata st1) /\
  exists r1 r2 domain href,
    find_url "https://example.com" (page_metadata st1) = Some r1 /\
    find_url "https://example.com" (page_metadata st2) = Some r2 /\
    pm_id r2 = pm_id r1 /\
    w_parseURL (demo_world 200) "https://example.com" = Some (domain, href) /\
    pm_r2_path r2 = generateStorageKey (w_subtle (demo_world 200)) domain href /\
    d1_bind (JStr "en") = Some (pm_lang r2) /\
    pm_page_crawled_at r2 = Some (w_now (demo_world 200)).
Proof.
  intros run st1 st2.
  assert (H0 : count_url "https://example.com" (page_metadata attached_st) <= 1)
    by (vm_compute; lia).
  assert (H1 : run (demo_world 200) attached_st = (inr JUndef, st1)) by (vm_compute; reflexivity).
  assert (H2 : run (demo_world 200) st1 = (inr JUndef, st2)) by (vm_compute; reflexivity).
  split; [exact H0|]; split; [exact H1|]; split; [exact H2|].
  exact (scrapePage_twice_updates_in_place (demo_world 200) (demo_world 200) attached_st st1 st2
           "https://example.com" (JNum 1000) (JStr "en") (JStr "all") JUndef JUndef H0 H1 H2).
Defined.

Lemma savePageMetadata_keeps_buckets k u lang :
  keeps raw_html_bucket (savePageMetadata k u lang) /\
  keeps screenshot_bucket (savePageMetadata k u lang).
Proof. unfold savePageMetadata; split; keeps_solve. Qed.

Lemma upsert_row_key now u k l t t' :
  upsert_page_metadata now u k l t = Some t' ->
  exists r, find_url u t' = Some r /\ pm_r2_path r = k.
Proof.
  intros Hu.
  assert (Hl : l <> SqlNull) by (intros ->; discriminate Hu).
  destruct (find_url u t) as [r|] eqn:E.
  - rewrite (upsert_existing _ _ _ _ _ _ Hl E) in Hu; injection Hu as <-.
    rewrite find_url_map, E by apply update_row_url; cbn [option_map].
    eexists; split; [reflexivity|].
    unfold update_row; rewrite (find_url_url _ _ _ E), String.eqb_refl; reflexivity.
  - unfold upsert_page_metadata in Hu; rewrite E in Hu.
    destruct l; [contradiction| |]; injection Hu as <-;
      (eexists; split; [apply find_url_app_new; [exact E | reflexivity] | reflexivity]).
Qed.

(** Claim C10: for a [mode] other than ["html"], ["screenshot"] and
    ["all"] (the handlers only default a falsy mode), once navigation has
    succeeded [scrapePage] runs nothing but the metadata upsert: neither
    bucket is written, and on success the URL's row points at the key
    [r2Key], under which this run stored no artifact. *)
Theorem scrapePage_unknown_mode w st st1 u domain href idle lang mode page :
  mode_is mode "html" = false -> mode_is mode "screenshot" = false ->
  mode_is mode "all" = false ->
  w_parseURL w u = Some (domain, href) ->
  navigateToPage u idle w st = (inr page, st1) ->
  let r2Key := generateStorageKey (w_subtle w) domain href in
  scrapePage (JStr u) idle lang mode w st =
    (match savePageMetadata r2Key u lang w st1 with
     | (inl e, s) => (inl e, s)
     | (inr _, s) => (inr JUndef, s)
     end) /\
  raw_html_bucket (snd (scrapePage (JStr u) idle lang mode w st)) = raw_html_bucket st /\
  screenshot_bucket (snd (scrapePage (JStr u) idle lang mode w st)) = screenshot_bucket st /\
  (fst (scrapePage (JStr u) idle lang mode w st) = inr JUndef ->
   exists r, find_url u (page_metadata (snd (scrapePage (JStr u) idle lang mode w st))) = Some r /\
             pm_r2_path r = r2Key).
Proof.
  intros Hh Hs Ha Hp Hn r2Key.
  assert (E : scrapePage (JStr u) idle lang mode w st =
    (match savePageMetadata r2Key u lang w st1 with
     | (inl e, s) => (inl e, s)
     | (inr _, s) => (inr JUndef, s)
     end)).
  { unfold scrapePage, bind at 1, ask; rewrite Hp; cbv zeta.
    unfold bind at 1; rewrite Hn, Hh, Ha, Hs; cbn [orb].
    unfold bind, ret; fold r2Key.
    destruct (savePageMetadata r2Key u lang w st1) as [[e|[]] s]; reflexivity. }
  rewrite E.
  destruct (navigateToPage_keeps u idle) as [_ [K1 K2]].
  destruct (savePageMetadata_keeps_buckets r2Key u lang) as [K3 K4].
  specialize (K1 w st); specialize (K2 w st); specialize (K3 w st1); specialize (K4 w st1).
  rewrite Hn in K1, K2; cbn in K1, K2.
  destruct (savePageMetadata r2Key u lang w st1) as [[e|[]] s] eqn:Es; cbn in *.
  - repeat split; try congruence; discriminate.
  - repeat split; try congruence.
    intros _.
    destruct (savePageMetadata_ok _ _ _ _ _ _ Es) as [l [_ [_ Hu]]].
    exact (upsert_row_key _ _ _ _ _ _ Hu).
Qed.

Lemma scrapePage_unknown_mode_witness :
  let w := demo_world 200 in
  let st1 := snd (navigateToPage "https://example.com" (JNum 1000) w attached_st) in
  let run := scrapePage (JStr "https://example.com") (JNum 1000) (JStr "en") (JStr "pdf") in
  let r2Key := generateStorageKey (w_subtle w) "example.com" "https://example.com/" in
  navigateToPage "https://example.com" (JNum 1000) w attached_st = (inr "https://example.com", st1) /\
  run w attached_st =
    (match savePageMetadata r2Key "https://example.com" (JStr "en") w st1 with
     | (inl e, s) => (inl e, s) | (inr _, s) => (inr JUndef, s) end) /\
  raw_html_bucket (snd (run w attached_st)) = raw_html_bucket attached_st /\
  screenshot_bucket (snd (run w attached_st)) = screenshot_bucket attached_st /\
  (fst (run w attached_st) = inr JUndef ->
   exists r, find_url "https://example.com" (page_metadata (snd (run w attached_st))) = Some r /\
             pm_r2_path r = r2Key).
Proof.
  intros w st1 run r2Key.
  assert (Hn : navigateToPage "https://example.com" (JNum 1000) w attached_st =
               (inr "https://example.com", st1)) by (vm_compute; reflexivity).
  split; [exact Hn|].
  exact (scrapePage_unknown_mode w attached_st st1 "https://example.com" "example.com"
           "https://example.com/" (JNum 1000) (JStr "en") (JStr "pdf") "https://example.com"
           eq_refl eq_refl eq_refl eq_refl Hn).
Defined.

(** ** Navigation failures *)

(** A navigation that answers no response, or a status other than 200,
    stops [scrapePage] right after the [goto]. *)
Lemma scrapePage_non200 w st u domain href idle lang mode sid :
  w_parseURL w u = Some (domain, href) ->
  browser st = Some sid -> w_newPage_ok w = true ->
  (w_goto w u = GotoNull \/ exists status, w_goto w u = GotoStatus status /\ status <> 200%Z) ->
  scrapePage (JStr u) idle lang mode w st =
    (inl "Failed to load page",
     {| trace := trace st ++ [EvNewPage; EvGoto u]; browser := browser st;
        page_metadata := page_metadata st; raw_html_bucket := raw_html_bucket st;
        screenshot_bucket := screenshot_bucket st |}).
Proof.
  intros Hp Hb Hn Hg.
  unfold scrapePage, bind at 1, ask; rewrite Hp; cbv zeta.
  unfold bind at 1.
  replace (navigateToPage u idle w st) with
    ((inl "Failed to load page",
     {| trace := trace st ++ [EvNewPage; EvGoto u]; browser := browser st;
        page_metadata := page_metadata st; raw_html_bucket := raw_html_bucket st;
        screenshot_bucket := screenshot_bucket st |}) : (string + string) * St);
    [reflexivity|].
  unfold navigateToPage, bind, gets, ask, emit, modify, ret, throw.
  rewrite Hb; cbn; rewrite Hn; cbn.
  destruct Hg as [Hg | [status [Hg Hne]]]; rewrite Hg.
  - cbn; rewrite <- app_assoc, Hb; reflexivity.
  - apply Z.eqb_neq in Hne; rewrite Hne; cbn; rewrite <- app_assoc, Hb; reflexivity.
Qed.

(** Claim C3, as the code behaves: when navigation answers a status other
    than 200, or no response at all, [navigateToPage] throws and the scrape
    stops right after the [goto]: no content or screenshot is read, nothing
    is stored and no metadata is written.  The error is the fixed message
    ["Failed to load page"]; the status is only logged.  On the POST path,
    once a session is attached, the answer is therefore the same for every
    such status: a 500 whose error is ["Failed to load page"] when
    [disconnect] resolves, and a rejection with the [disconnect] error when
    it rejects. *)
Theorem scrapePage_non200_aborts w u domain href :
  w_parseURL w u = Some (domain, href) -> w_newPage_ok w = true ->
  (w_goto w u = GotoNull \/ exists status, w_goto w u = GotoStatus status /\ status <> 200%Z) ->
  (forall st sid idle lang mode, browser st = Some sid ->
   scrapePage (JStr u) idle lang mode w st =
     (inl "Failed to load page",
      {| trace := trace st ++ [EvNewPage; EvGoto u]; browser := browser st;
         page_metadata := page_metadata st; raw_html_bucket := raw_html_bucket st;
         screenshot_bucket := screenshot_bucket st |})) /\
  (forall st request body,
   option_map (replace_first "Bearer " "") (req_authorization request) = Some (w_API_TOKEN w) ->
   req_method request = "POST" -> req_body request = Some body ->
   js_get body "url" = JStr u -> u <> "" ->
   fst (getBrowser w (snd (new_scrapper w st))) = inr tt ->
   fst (fetch request w st) =
     if w_disconnect_ok w then
       inr (response_json [("message", JStr "Failed to scrape page"); ("status", JStr "failed");
                           ("targetUrl", JStr u); ("error", JStr "Failed to load page")] 500)
     else inl "Failed to disconnect").
Proof.
  intros Hp Hn Hg.
  split; [intros st sid idle lang mode Hb; exact (scrapePage_non200 w st u domain href idle lang mode sid Hp Hb Hn Hg)|].
  intros st request body Ha Hm Hb Hu Hne Hgb.
  unfold fetch, bind at 1, ask; rewrite Ha, String.eqb_refl, Hm; cbn [negb].
  change (String.eqb "POST" "POST") with true; cbn [negb andb].
  rewrite Hb; cbv zeta; rewrite Hu.
  apply String.eqb_neq in Hne; cbn [truthy]; rewrite Hne; cbn [negb]; cbv iota.
  unfold new_scrapper, set_browser, modify, try_catch, bind.
  set (s0 := {| trace := trace st; browser := None; page_metadata := page_metadata st;
                raw_html_bucket := raw_html_bucket st; screenshot_bucket := screenshot_bucket st |}).
  change (snd (new_scrapper w st)) with s0 in Hgb.
  assert (Hs0 : browser s0 = None) by reflexivity.
  destruct (getBrowser_spec w s0 Hs0)
    as [tr1 [_ [_ [_ [_ [[_ [_ [sid Hb1]]] | [[e He] _]]]]]]];
    [| rewrite Hgb in He; discriminate].
  destruct (getBrowser w s0) as [r1 s1] eqn:G; cbn [fst snd] in Hgb, Hb1; subst r1.
  cbv beta iota.
  rewrite (scrapePage_non200 w s1 u domain href _ _ _ sid Hp Hb1 Hn Hg); cbv beta iota.
  rewrite (cleanup_some w _ sid) by (cbn; congruence).
  destruct (w_disconnect_ok w); reflexivity.
Qed.

Lemma scrapePage_non200_aborts_witness :
  (forall st sid idle lang mode, browser st = Some sid ->
   scrapePage (JStr "https://example.com") idle lang mode (demo_world 403) st =
     (inl "Failed to load page",
      {| trace := trace st ++ [EvNewPage; EvGoto "https://example.com"]; browser := browser st;
         page_metadata := page_metadata st; raw_html_bucket := raw_html_bucket st;
         screenshot_bucket := screenshot_bucket st |})) /\
  fst (fetch (post_request url_only_body) (demo_world 403) empty_st) =
    inr (response_json [("message", JStr "Failed to scrape page"); ("status", JStr "failed");
                        ("targetUrl", JStr "https://example.com");
                        ("error", JStr "Failed to load page")] 500).
Proof.
  destruct (scrapePage_non200_aborts (demo_world 403) "https://example.com"
              "example.com" "https://example.com/")
    as [Hs Hf];
    [reflexivity | reflexivity | right; exists 403%Z; split; [reflexivity | lia] |].
  split; [exact Hs|].
  exact (Hf empty_st (post_request url_only_body) url_only_body
            eq_refl eq_refl eq_refl eq_refl ltac:(discriminate) eq_refl).
Defined.

(** Claim C3, counterexample: a 403 and a 404 produce the same POST
    response, a 500 whose error is ["Failed to load page"]; the observed
    status does not reach the caller. *)
Lemma fetch_status_not_propagated :
  fst (fetch (post_request url_only_body) (demo_world 403) empty_st) =
    fst (fetch (post_request url_only_body) (demo_world 404) empty_st) /\
  fst (fetch (post_request url_only_body) (demo_world 403) empty_st) =
    inr (response_json [("message", JStr "Failed to scrape page"); ("status", JStr "failed");
                        ("targetUrl", JStr "https://example.com");
                        ("error", JStr "Failed to load page")] 500).
Proof. split; vm_compute; reflexivity. Qed.

(** ** The result of a scrape *)

(** [scrapePage] has no [return]: a successful scrape resolves to
    [undefined]. *)
Lemma scrapePage_resolves_undefined url idle lang mode w s v s' :
  scrapePage url idle lang mode w s = (inr v, s') -> v = JUndef.
Proof.
  unfold scrapePage; intros H.
  apply bind_inr in H as [w' [s0 [H0 H]]]; injection H0 as <- <-.
  destruct url as [| | | | u |]; try discriminate.
  destruct (w_parseURL w u) as [[domain href]|]; [|discriminate]; cbv zeta in H.
  apply bind_inr in H as [page [s1 [H1 H]]].
  apply bind_inr in H as [[] [s2 [H2 H]]].
  apply bind_inr in H as [[] [s3 [H3 H]]].
  apply bind_inr in H as [[] [s4 [H4 H]]].
  injection H as <- _; reflexivity.
Qed.

(** Claim C8: a 200 response of [fetch] (the POST path after a successful
    scrape) has no [result] field: [scrapePage] resolves to [undefined]
    and [JSON.stringify] drops the key, so neither the storage key nor a
    title reaches the caller. *)
Theorem fetch_success_has_no_result w st request resp :
  fst (fetch request w st) = inr resp -> resp_status resp = 200%Z ->
  ~ In "result" (map fst (resp_body resp)).
Proof.
  intros Hr H200.
  unfold fetch, bind at 1, ask in Hr.
  destruct (negb _); [injection Hr as <-; discriminate H200|].
  destruct (negb _ && negb _)%bool; [injection Hr as <-; discriminate H200|].
  destruct (req_body request) as [body|]; [|discriminate Hr].
  cbv zeta in Hr.
  destruct (negb (truthy (js_get body "url"))); [injection Hr as <-; discriminate H200|].
  destruct (String.eqb (req_method request) "POST").
  - unfold bind at 1, new_scrapper, set_browser, modify in Hr.
    unfold try_catch, bind in Hr.
    destruct (getBrowser w _) as [[e1|[]] s1]; cbv beta iota in Hr.
    + destruct (cleanup w s1) as [[e|[]] s2]; cbn in Hr; [discriminate|].
      injection Hr as <-; discriminate H200.
    + destruct (scrapePage _ _ _ _ w s1) as [[e2|v] s2] eqn:E; cbv beta iota in Hr.
      * destruct (cleanup w s2) as [[e|[]] s3]; cbn in Hr; [discriminate|].
        injection Hr as <-; discriminate H200.
      * apply scrapePage_resolves_undefined in E; subst v.
        destruct (cleanup w s2) as [[e|[]] s3]; cbv beta iota in Hr.
        -- destruct (cleanup w s3) as [[e'|[]] s4]; cbn in Hr; [discriminate|].
           injection Hr as <-; discriminate H200.
        -- cbn in Hr; injection Hr as <-; cbn.
           destruct (js_get body "url"); cbn; intuition discriminate.
  - unfold try_catch, bind, emit, modify, ret, throw in Hr.
    destruct (w_queue_send_ok w); cbn in Hr; injection Hr as <-; discriminate H200.
Qed.

Lemma fetch_success_has_no_result_witness :
  fst (fetch (post_request url_only_body) (demo_world 200) empty_st) =
    inr (response_json [("message", JStr "Page scrapped successfully.");
                        ("status", JStr "success");
                        ("targetUrl", JStr "https://example.com");
                        ("result", JUndef)] 200) /\
  ~ In "result" (map fst (resp_body (response_json
      [("message", JStr "Page scrapped successfully."); ("status", JStr "success");
       ("targetUrl", JStr "https://example.com"); ("result", JUndef)] 200))).
Proof.
  assert (H : fst (fetch (post_request url_only_body) (demo_world 200) empty_st) =
    inr (response_json [("message", JStr "Page scrapped successfully.");
                        ("status", JStr "success");
                        ("targetUrl", JStr "https://example.com");
                        ("result", JUndef)] 200)) by (vm_compute; reflexivity).
  split; [exact H | exact (fetch_success_has_no_result _ _ _ _ H eq_refl)].
Defined.

(** ** The batch consumer *)

(** One message: it is acknowledged exactly when its body can be read and
    its scrape succeeds, and retried otherwise; [queue_message] itself
    never throws. *)
Lemma queue_message_spec ws i m ms s :
  exists (ok : bool) (s1 : St),
    queue_message i m (ws i) s = (inr tt, snd (emit (if ok then EvAck i else EvRetry i) (ws i) s1)) /\
    browser s1 = browser s /\
    (exists tr, trace s1 = trace s ++ tr /\
       acquisitions tr = 0 /\ disconnects tr = 0 /\ verdicts tr = []) /\
    (forall oks s2,
       batch_run ws (S i) ms (snd (emit (if ok then EvAck i else EvRetry i) (ws i) s1)) oks s2 ->
       batch_run ws i (m :: ms) s (ok :: oks) s2).
Proof.
  assert (Hnil : exists tr, trace s = trace s ++ tr /\
            acquisitions tr = 0 /\ disconnects tr = 0 /\ verdicts tr = [])
    by (exists []; rewrite app_nil_r; auto).
  assert (Hread : m <> JUndef -> m <> JNull ->
    queue_message i m (ws i) s =
      try_catch (_ <- scrapePage (js_get m "url") (js_get m "idle")
                                 (js_get m "lang") (js_get m "mode") ;;
                 emit (EvAck i))
                (fun _ => emit (EvRetry i)) (ws i) s)
    by (destruct m; try contradiction; reflexivity).
  destruct (match m with JUndef | JNull => true | _ => false end) eqn:Hm.
  - exists false, s; split; [|split; [reflexivity | split; [exact Hnil|]]].
    + destruct m; try discriminate Hm; reflexivity.
    + intros oks s2 H; apply batch_unreadable; [destruct m; try discriminate Hm; auto | exact H].
  - assert (H1 : m <> JUndef) by (intros ->; discriminate Hm).
    assert (H2 : m <> JNull) by (intros ->; discriminate Hm).
    rewrite (Hread H1 H2).
    destruct (scrapePage_neutral (js_get m "url") (js_get m "idle") (js_get m "lang")
                (js_get m "mode") (ws i) s) as [Hb Htr].
    unfold try_catch, bind.
    destruct (scrapePage (js_get m "url") (js_get m "idle") (js_get m "lang")
                (js_get m "mode") (ws i) s) as [[e|v] s1] eqn:E; cbn [fst snd] in Hb, Htr.
    + exists false, s1; split; [reflexivity|]; split; [exact Hb|]; split; [exact Htr|].
      intros oks s2 H; eapply batch_retry; eauto.
    + exists true, s1; split; [reflexivity|]; split; [exact Hb|]; split; [exact Htr|].
      intros oks s2 H; eapply batch_ack; eauto.
Qed.

Lemma queue_loop_spec ws w msgs : forall i s,
  exists oks,
    queue_loop_in ws i msgs w s = (inr tt, snd (queue_loop_in ws i msgs w s)) /\
    batch_run ws i msgs s oks (snd (queue_loop_in ws i msgs w s)) /\
    length oks = length msgs /\
    browser (snd (queue_loop_in ws i msgs w s)) = browser s /\
    exists tr, trace (snd (queue_loop_in ws i msgs w s)) = trace s ++ tr /\
      acquisitions tr = 0 /\ disconnects tr = 0 /\ verdicts tr = verdict_list i oks.
Proof.
  induction msgs as [|m ms IH]; intros i s.
  - exists []; cbn; split; [reflexivity|]; split; [constructor|].
    split; [reflexivity|]; split; [reflexivity|].
    exists []; rewrite app_nil_r; auto.
  - destruct (queue_message_spec ws i m ms s) as [ok [s1 [Hq [Hb [[tr1 [Ht1 [Ha1 [Hd1 Hv1]]]] Hrun]]]]].
    set (s1' := snd (emit (if ok then EvAck i else EvRetry i) (ws i) s1)) in *.
    destruct (IH (S i) s1') as [oks [Hl [Hr [Hlen [Hb2 [tr2 [Ht2 [Ha2 [Hd2 Hv2]]]]]]]]].
    assert (E : queue_loop_in ws i (m :: ms) w s = queue_loop_in ws (S i) ms w s1')
      by (cbn; unfold bind; rewrite Hq; reflexivity).
    rewrite E.
    exists (ok :: oks); split; [exact Hl|]; split; [apply Hrun, Hr|].
    split; [cbn; rewrite Hlen; reflexivity|].
    split; [rewrite Hb2; subst s1'; destruct ok; exact Hb|].
    exists (tr1 ++ [if ok then EvAck i else EvRetry i] ++ tr2).
    rewrite Ht2; subst s1'; cbn [snd emit modify trace]; rewrite Ht1, <- !app_assoc.
    split; [reflexivity|].
    rewrite !acquisitions_app, !disconnects_app, !verdicts_app, Ha1, Hd1, Ha2, Hd2, Hv1, Hv2.
    destruct ok; cbn; auto.
Qed.

Lemma queue_loop_const w msgs : forall i s,
  queue_loop i msgs w s = queue_loop_in (fun _ => w) i msgs w s.
Proof.
  induction msgs as [|m ms IH]; intros i s; [reflexivity|].
  cbn; unfold bind.
  destruct (queue_message i m w s) as [[e|[]] s1]; [reflexivity | apply IH].
Qed.

(** Claim C7, counterexample: when no session can be obtained (the only
    listed session is attached elsewhere and the launch fails), [queue]
    throws before the first message: no session is acquired, no message
    is acknowledged or retried, and nothing is released. *)
Lemma queue_acquisition_failure :
  queue [url_only_body] exhausted_world empty_st =
    (inl "Failed to launch browser",
     {| trace := [EvSessions; EvLaunch false]; browser := None; page_metadata := [];
        raw_html_bucket := []; screenshot_bucket := [] |}).
Proof. vm_compute; reflexivity. Qed.

(** Claim C7, as the code behaves: [queue] is [queue_in] with the same
    answers for every message, and for any answers of the remote services,
    message by message: if [getBrowser] succeeds, the batch acquires one
    session before any message ([tr1]), every message runs on that same
    session ([browser] stays [Some sid]) without acquiring or releasing
    one, each message gets one verdict in batch order, an ack exactly when
    its scrape succeeds ([batch_run]), and the session is released with
    one [disconnect] call, last; the batch resolves, or rejects with the
    [disconnect] error when that call rejects.  If [getBrowser] fails, the
    batch throws with no session acquired, no verdict and no release. *)
Theorem queue_one_session_when_acquired w ws st msgs :
  queue msgs w st = queue_in (fun _ => w) msgs w st /\
  exists tr, trace (snd (queue_in ws msgs w st)) = trace st ++ tr /\
  ((fst (queue_in ws msgs w st) =
      (if w_disconnect_ok w then inr tt else inl "Failed to disconnect") /\
    exists tr1 tr2 sid s1 s2 oks,
      tr = tr1 ++ tr2 ++ [EvDisconnect] /\
      acquisitions tr1 = 1 /\ disconnects tr1 = 0 /\ verdicts tr1 = [] /\
      trace s1 = trace st ++ tr1 /\ browser s1 = Some sid /\
      batch_run ws 0 msgs s1 oks s2 /\
      trace s2 = trace s1 ++ tr2 /\ browser s2 = Some sid /\
      acquisitions tr2 = 0 /\ disconnects tr2 = 0 /\
      length oks = length msgs /\ verdicts tr2 = verdict_list 0 oks) \/
   ((exists e, fst (queue_in ws msgs w st) = inl e) /\
    acquisitions tr = 0 /\ disconnects tr = 0 /\ verdicts tr = [])).
Proof.
  split.
  { unfold queue, queue_in, bind.
    destruct (new_scrapper w st) as [[e|[]] s0]; [reflexivity|].
    destruct (getBrowser w s0) as [[e|[]] s1]; [reflexivity|].
    rewrite queue_loop_const; reflexivity. }
  set (s0 := snd (new_scrapper w st)).
  assert (E : queue_in ws msgs w st = (getBrowser ;; queue_loop_in ws 0 msgs ;; cleanup) w s0)
    by reflexivity.
  assert (Hs0 : browser s0 = None) by reflexivity.
  assert (Ht0 : trace s0 = trace st) by reflexivity.
  rewrite E; clearbody s0.
  destruct (getBrowser_spec w s0 Hs0)
    as [tr1 [Ht1 [Hd1 [Hv1 [_ [[Hr1 [Ha1 [sid Hb1]]] | [[e Hr1] [Ha1 Hb1]]]]]]]].
  - destruct (getBrowser w s0) as [r1 s1] eqn:G; cbn [fst snd] in Hr1, Hb1, Ht1; subst r1.
    destruct (queue_loop_spec ws w msgs 0 s1)
      as [oks [Hl [Hr [Hlen [Hb2 [tr2 [Ht2 [Ha2 [Hd2 Hv2]]]]]]]]].
    set (s2 := snd (queue_loop_in ws 0 msgs w s1)) in *.
    assert (Q : (getBrowser ;; queue_loop_in ws 0 msgs ;; cleanup) w s0 =
      ((if w_disconnect_ok w then inr tt else inl "Failed to disconnect"),
       {| trace := trace s2 ++ [EvDisconnect]; browser := browser s2;
          page_metadata := page_metadata s2; raw_html_bucket := raw_html_bucket s2;
          screenshot_bucket := screenshot_bucket s2 |})).
    { unfold bind; rewrite G, Hl; rewrite (cleanup_some w s2 sid) by congruence.
      reflexivity. }
    rewrite Q; cbn [fst snd trace].
    exists (tr1 ++ tr2 ++ [EvDisconnect]).
    rewrite Ht2, Ht1, Ht0, !app_assoc; split; [reflexivity|].
    left; split; [reflexivity|].
    exists tr1, tr2, sid, s1, s2, oks.
    rewrite <- !app_assoc.
    repeat split; try assumption; try congruence.
  - destruct (getBrowser w s0) as [r1 s1] eqn:G; cbn [fst snd] in Hr1, Hb1, Ht1; subst r1.
    assert (Q : (getBrowser ;; queue_loop_in ws 0 msgs ;; cleanup) w s0 = (inl e, s1))
      by (unfold bind; rewrite G; reflexivity).
    rewrite Q; cbn [fst snd].
    exists tr1; rewrite Ht1, Ht0; split; [reflexivity|].
    right; split; [eauto|]; auto.
Qed.

(** A batch of three messages, the second of which fails (it has no
    [lang]): the first and third are acknowledged, the second retried, and
    one session is acquired and released for the whole batch. *)
Example queue_batch_of_three :
  let tr := trace (snd (queue [JObj (with_defaults [("url", JStr "https://example.com")]);
                               url_only_body;
                               JObj (with_defaults [("url", JStr "https://example.com/a")])]
                              (demo_world 200) empty_st)) in
  verdicts tr = [EvAck 0; EvRetry 1; EvAck 2] /\ acquisitions tr = 1 /\ disconnects tr = 1.
Proof. vm_compute; repeat split. Qed.

(** The same URL three times, where only the second scrape cannot read
    the page content: the first and third messages are acknowledged, the
    second retried, and one session is acquired and released. *)
Example queue_extraction_failure_in_batch :
  let tr := trace (snd (queue_in second_extraction_fails
                          [JObj (with_defaults [("url", JStr "https://example.com")]);
                           JObj (with_defaults [("url", JStr "https://example.com")]);
                           JObj (with_defaults [("url", JStr "https://example.com")])]
                          (demo_world 200) empty_st)) in
  verdicts tr = [EvAck 0; EvRetry 1; EvAck 2] /\ acquisitions tr = 1 /\ disconnects tr = 1.
Proof. vm_compute; repeat split. Qed.

(** ** Request defaults *)

Lemma js_or_twice a d : js_or (js_or a d) d = js_or a d.
Proof. unfold js_or; destruct (truthy a) eqn:E; [rewrite E | destruct (truthy d)]; reflexivity. Qed.

(** A scrape with [lang] [undefined] never succeeds: D1 rejects the
    binding, or an earlier step fails. *)
Lemma scrapePage_undefined_lang_fails url idle mode w s :
  exists e, fst (scrapePage url idle JUndef mode w s) = inl e.
Proof.
  destruct (scrapePage url idle JUndef mode w s) as [[e|v] s'] eqn:E; [exists e; reflexivity | exfalso].
  destruct url as [| | | | u |]; try discriminate E.
  destruct (scrapePage_ok_upsert _ _ _ _ _ _ _ _ E) as [_ [_ [l [_ [Hl _]]]]].
  discriminate Hl.
Qed.

(** Claim C9, counterexample: a queued message carrying only a URL is
    scraped with [idle], [lang] and [mode] [undefined] (no HTML stored, the
    upsert rejected, the message retried), while the same message with the
    defaults written out is scraped as HTML and acknowledged. *)
Lemma queue_applies_no_defaults :
  trace (snd (queue [url_only_body] (demo_world 200) empty_st)) =
    [EvSessions; EvConnect "s-free" true; EvNewPage; EvGoto "https://example.com";
     EvIdleWait JUndef;
     EvD1Upsert "https://example.com"
       (generateStorageKey demo_subtle "example.com" "https://example.com/") JUndef;
     EvRetry 0; EvDisconnect] /\
  trace (snd (queue [JObj (with_defaults [("url", JStr "https://example.com")])]
                    (demo_world 200) empty_st)) =
    [EvSessions; EvConnect "s-free" true; EvNewPage; EvGoto "https://example.com";
     EvIdleWait (JNum 1000); EvContent;
     EvR2Put "RAW_HTML_BUCKET"
       (generateStorageKey demo_subtle "example.com" "https://example.com/" ++ ".html");
     EvD1Upsert "https://example.com"
       (generateStorageKey demo_subtle "example.com" "https://example.com/") (JStr "en");
     EvAck 0; EvDisconnect].
Proof. split; vm_compute; reflexivity. Qed.

(** Claim C9, as the code behaves: the HTTP handler applies the defaults.
    A POST behaves exactly as if the body carried [idle || 1000],
    [lang || "en"] and [mode || "html"] ([with_defaults]); an authorized
    PUT with a URL enqueues a message holding those defaulted values.  The
    batch consumer applies none: a message without [lang] is scraped with
    [lang] [undefined] and is retried, never acknowledged. *)
Theorem request_defaults w st auth fs i s :
  fetch {| req_authorization := auth; req_method := "POST"; req_body := Some (JObj fs) |} w st =
  fetch {| req_authorization := auth; req_method := "POST";
           req_body := Some (JObj (with_defaults fs)) |} w st /\
  (option_map (replace_first "Bearer " "") auth = Some (w_API_TOKEN w) ->
   truthy (assoc_get "url" fs) = true ->
   trace (snd (fetch {| req_authorization := auth; req_method := "PUT";
                        req_body := Some (JObj fs) |} w st)) =
     trace st ++ [EvQueueSend (JObj [("url", assoc_get "url" fs);
       ("idle", js_or (assoc_get "idle" fs) DEFAULT_AWAIT_NETWORK_IDLE);
       ("lang", js_or (assoc_get "lang" fs) DEFAULT_LANG);
       ("mode", js_or (assoc_get "mode" fs) DEFAULT_MODE)])]) /\
  (assoc_get "lang" fs = JUndef ->
   exists s1, queue_message i (JObj fs) w s = (inr tt, snd (emit (EvRetry i) w s1))).
Proof.
  split; [|split].
  - unfold fetch; cbn [req_body req_method req_authorization].
    change (js_get (JObj (with_defaults fs)) "url") with (js_get (JObj fs) "url").
    change (js_get (JObj (with_defaults fs)) "idle")
      with (js_or (js_get (JObj fs) "idle") DEFAULT_AWAIT_NETWORK_IDLE).
    change (js_get (JObj (with_defaults fs)) "lang")
      with (js_or (js_get (JObj fs) "lang") DEFAULT_LANG).
    change (js_get (JObj (with_defaults fs)) "mode")
      with (js_or (js_get (JObj fs) "mode") DEFAULT_MODE).
    rewrite !js_or_twice; reflexivity.
  - intros Ha Hu.
    unfold fetch, bind, ask, try_catch, emit, modify, ret, throw; cbn [req_body req_method req_authorization].
    rewrite Ha, String.eqb_refl; cbn [negb js_get]; rewrite Hu; cbn.
    destruct (w_queue_send_ok w); reflexivity.
  - intros Hl.
    destruct (scrapePage_undefined_lang_fails (assoc_get "url" fs) (assoc_get "idle" fs)
                (assoc_get "mode" fs) w s) as [e He].
    unfold queue_message, try_catch, bind; cbn [js_get]; rewrite Hl.
    destruct (scrapePage _ _ JUndef _ w s) as [r s1]; cbn in He; subst r.
    exists s1; reflexivity.
Qed.

Lemma request_defaults_witness :
  trace (snd (fetch {| req_authorization := Some "Bearer secret"; req_method := "PUT";
                       req_body := Some url_only_body |} (demo_world 200) empty_st)) =
    [EvQueueSend (JObj [("url", JStr "https://example.com"); ("idle", JNum 1000);
                        ("lang", JStr "en"); ("mode", JStr "html")])] /\
  exists s1, queue_message 0 url_only_body (demo_world 200) empty_st =
               (inr tt, snd (emit (EvRetry 0) (demo_world 200) s1)).
Proof.
  destruct (request_defaults (demo_world 200) empty_st (Some "Bearer secret")
              [("url", JStr "https://example.com")] 0 empty_st) as [_ [Hput Hq]].
  split; [apply Hput; reflexivity | apply Hq; reflexivity].
Defined.

(** * More of the worker *)


Lemma hex_digit_hex n : is_hex_char (hex_digit n) = true.
Proof. do 16 (destruct n as [|n]; [reflexivity|]); reflexivity. Qed.

Lemma list_ascii_of_string_app a b :
  list_ascii_of_string (a ++ b)%string = list_ascii_of_string a ++ list_ascii_of_string b.
Proof. induction a as [|c a IH]; cbn; [reflexivity | rewrite IH; reflexivity]. Qed.

Lemma hex_of_bytes_shape bs :
  forallb is_hex_char (list_ascii_of_string (hex_of_bytes bs)) = true /\
  String.length (hex_of_bytes bs) = 2 * length bs.
Proof.
  induction bs as [|b bs [IH1 IH2]]; [split; reflexivity|].
  rewrite hex_of_bytes_cons; cbn [list_ascii_of_string forallb String.length length].
  rewrite !hex_digit_hex, IH1, IH2; split; [reflexivity | lia].
Qed.

(** Every storage key of [WebScrapper.generateStorageKey] is two runs of
    lowercase hex digits joined by one ['/']: two digits per digest byte
    ([padStart(2, '0')]), so with SHA-1 and SHA-256 (20 and 32 bytes) a
    key has 40 + 1 + 64 characters. *)
Theorem generateStorageKey_shape subtle domain url :
  exists a b, generateStorageKey subtle domain url = (a ++ "/" ++ b)%string /\
    forallb is_hex_char (list_ascii_of_string (a ++ b)%string) = true /\
    String.length a = 2 * length (digest_sha1 subtle (text_encode subtle domain)) /\
    String.length b = 2 * length (digest_sha256 subtle (text_encode subtle url)).
Proof.
  destruct (hex_of_bytes_shape (digest_sha1 subtle (text_encode subtle domain))) as [A1 A2].
  destruct (hex_of_bytes_shape (digest_sha256 subtle (text_encode subtle url))) as [B1 B2].
  eexists _, _; split; [reflexivity|].
  rewrite list_ascii_of_string_app, forallb_app, A1, B1; auto.
Qed.

(** The first worker's keys have the same shape, with SHA-256 on both
    sides: 64 + 1 + 64 hex characters. *)
Theorem legacy_generateStorageKey_shape subtle domain url :
  exists a b, Legacy.generateStorageKey subtle domain url = (a ++ "/" ++ b)%string /\
    forallb is_hex_char (list_ascii_of_string (a ++ b)%string) = true /\
    String.length a = 2 * length (digest_sha256 subtle (text_encode subtle domain)) /\
    String.length b = 2 * length (digest_sha256 subtle (text_encode subtle url)).
Proof.
  destruct (hex_of_bytes_shape (digest_sha256 subtle (text_encode subtle domain))) as [A1 A2].
  destruct (hex_of_bytes_shape (digest_sha256 subtle (text_encode subtle url))) as [B1 B2].
  eexists _, _; split; [reflexivity|].
  rewrite list_ascii_of_string_app, forallb_app, A1, B1; auto.
Qed.


Lemma substring_all t : substring 0 (String.length t) t = t.
Proof. induction t as [|c t IH]; cbn; [reflexivity | rewrite IH; reflexivity]. Qed.

Lemma replace_first_bearer t : replace_first "Bearer " "" ("Bearer " ++ t)%string = t.
Proof.
  assert (P : prefix "" t = true) by (destruct t; reflexivity).
  unfold replace_first; cbn; rewrite P; cbn.
  replace (String.length t - 0) with (String.length t) by lia.
  apply substring_all.
Qed.

Lemma replace_first_absent pat rep s :
  String.index 0 pat s = None -> replace_first pat rep s = s.
Proof. unfold replace_first; intros ->; reflexivity. Qed.

(** A request without an [Authorization] header, or with
    ["Bearer " ++ t] for a [t] other than [API_TOKEN], is answered 401
    before anything else: whatever its method and body, nothing is called
    and the state is unchanged. *)
Theorem fetch_unauthorized w s request :
  (req_authorization request = None \/
   exists t, req_authorization request = Some ("Bearer " ++ t)%string /\ t <> w_API_TOKEN w) ->
  fetch request w s =
    (inr (response_json [("message", JStr "Unauthorized"); ("status", JStr "failed")] 401), s).
Proof.
  intros H; unfold fetch, bind, ask.
  destruct H as [H | [t [H Ht]]]; rewrite H; cbn [option_map negb]; [reflexivity|].
  rewrite replace_first_bearer.
  apply String.eqb_neq in Ht; rewrite Ht; reflexivity.
Qed.

Lemma fetch_unauthorized_witness :
  ("wrong" <> w_API_TOKEN (demo_world 200)) /\
  fetch {| req_authorization := Some ("Bearer " ++ "wrong")%string; req_method := "POST";
           req_body := Some url_only_body |} (demo_world 200) empty_st =
    (inr (response_json [("message", JStr "Unauthorized"); ("status", JStr "failed")] 401),
     empty_st).
Proof.
  assert (H : "wrong" <> w_API_TOKEN (demo_world 200)) by discriminate.
  split; [exact H|].
  apply fetch_unauthorized; right; exists "wrong"; split; [reflexivity | exact H].
Defined.

(** [replace("Bearer ", "")] makes the prefix optional: a header holding
    the bare token is treated exactly like ["Bearer " ++ token]. *)
Theorem fetch_bare_token w s t meth body :
  String.index 0 "Bearer " t = None ->
  fetch {| req_authorization := Some ("Bearer " ++ t)%string; req_method := meth;
           req_body := body |} w s =
  fetch {| req_authorization := Some t; req_method := meth; req_body := body |} w s.
Proof.
  intros H; unfold fetch, bind, ask; cbn [option_map req_authorization].
  rewrite replace_first_bearer, (replace_first_absent _ _ _ H); reflexivity.
Qed.

Lemma fetch_bare_token_witness :
  String.index 0 "Bearer " "secret" = None /\
  fetch {| req_authorization := Some ("Bearer " ++ "secret")%string; req_method := "PUT";
           req_body := Some url_only_body |} (demo_world 200) empty_st =
  fetch {| req_authorization := Some "secret"; req_method := "PUT";
           req_body := Some url_only_body |} (demo_world 200) empty_st.
Proof.
  assert (H : String.index 0 "Bearer " "secret" = None) by reflexivity.
  split; [exact H | apply fetch_bare_token; exact H].
Defined.

(** An authorized request whose method is neither POST nor PUT is answered
    405 without reading its body and without any remote call. *)
Theorem fetch_bad_method w s request :
  option_map (replace_first "Bearer " "") (req_authorization request) = Some (w_API_TOKEN w) ->
  req_method request <> "POST" -> req_method request <> "PUT" ->
  fetch request w s =
    (inr (response_json [("message", JStr "Invalid request method");
                         ("status", JStr "failed")] 405), s).
Proof.
  intros Ha Hp Hu; unfold fetch, bind, ask; rewrite Ha, String.eqb_refl; cbn [negb].
  apply String.eqb_neq in Hp, Hu; rewrite Hp, Hu; reflexivity.
Qed.

(** An authorized POST or PUT whose body is not JSON rejects with the
    error of [request.json()] itself, and one whose [url] is falsy is
    answered 400; in both cases nothing is called and the state is
    unchanged. *)
Theorem fetch_validates_body w s request :
  option_map (replace_first "Bearer " "") (req_authorization request) = Some (w_API_TOKEN w) ->
  req_method request = "POST" \/ req_method request = "PUT" ->
  (req_body request = None ->
   fetch request w s = (inl (w_json_error w), s)) /\
  (forall body, req_body request = Some body -> truthy (js_get body "url") = false ->
   fetch request w s =
     (inr (response_json [("message", JStr "URL is required");
                          ("status", JStr "failed")] 400), s)).
Proof.
  intros Ha Hm; unfold fetch, bind, ask; rewrite Ha, String.eqb_refl; cbn [negb].
  assert (Hm' : (negb (String.eqb (req_method request) "POST")
                 && negb (String.eqb (req_method request) "PUT"))%bool = false)
    by (destruct Hm as [-> | ->]; reflexivity).
  rewrite Hm'; split.
  - intros ->; reflexivity.
  - intros body -> Hu; cbv zeta; rewrite Hu; reflexivity.
Qed.

(** A valid PUT makes exactly one remote call, the queue send of the
    defaulted message; no browser, bucket or table is touched.  It answers
    202 echoing the body as received, or 500 when the send fails. *)
Theorem fetch_put_enqueues w s request body :
  option_map (replace_first "Bearer " "") (req_authorization request) = Some (w_API_TOKEN w) ->
  req_method request = "PUT" -> req_body request = Some body ->
  truthy (js_get body "url") = true ->
  fetch request w s =
    ((if w_queue_send_ok w then
        inr (response_json [("message", JStr "Request Accepted"); ("status", JStr "success");
                            ("request", body)] 202)
      else
        inr (response_json [("message", JStr "Failed to send message to queue");
                            ("status", JStr "failed")] 500)),
     {| trace := trace s ++
          [EvQueueSend (JObj [("url", js_get body "url");
                              ("idle", js_or (js_get body "idle") DEFAULT_AWAIT_NETWORK_IDLE);
                              ("lang", js_or (js_get body "lang") DEFAULT_LANG);
                              ("mode", js_or (js_get body "mode") DEFAULT_MODE)])];
        browser := browser s; page_metadata := page_metadata s;
        raw_html_bucket := raw_html_bucket s; screenshot_bucket := screenshot_bucket s |}).
Proof.
  intros Ha Hm Hb Hu; unfold fetch, bind, ask; rewrite Ha, String.eqb_refl, Hm, Hb; cbn [negb].
  cbv zeta; rewrite Hu; cbn [negb].
  unfold try_catch, emit, modify, ret, throw; cbn.
  destruct (w_queue_send_ok w); reflexivity.
Qed.

Lemma cleanup_ok w s : w_disconnect_ok w = true -> fst (cleanup w s) = inr tt.
Proof.
  intros Hd; destruct (browser s) as [sid|] eqn:Hb.
  - rewrite (cleanup_some w s sid Hb), Hd; reflexivity.
  - rewrite (cleanup_none w s Hb); reflexivity.
Qed.

(** When [disconnect] does not throw, a valid POST never rejects: it
    answers 200 or 500. *)
Theorem fetch_post_answers w s request body :
  w_disconnect_ok w = true ->
  option_map (replace_first "Bearer " "") (req_authorization request) = Some (w_API_TOKEN w) ->
  req_method request = "POST" -> req_body request = Some body ->
  truthy (js_get body "url") = true ->
  exists resp, fst (fetch request w s) = inr resp /\
    (resp_status resp = 200%Z \/ resp_status resp = 500%Z).
Proof.
  intros Hd Ha Hm Hb Hu; unfold fetch, bind at 1, ask; rewrite Ha, String.eqb_refl, Hm, Hb;
    cbn [negb]; cbv zeta; rewrite Hu; cbn [negb andb].
  change (String.eqb "POST" "POST") with true; cbv iota.
  unfold bind at 1, new_scrapper, set_browser, modify.
  unfold try_catch, bind; cbn [negb andb]; cbv beta iota.
  destruct (getBrowser w _) as [[e1|[]] s1]; cbv beta iota.
  - pose proof (cleanup_ok w s1 Hd) as C.
    destruct (cleanup w s1) as [[e|[]] s2]; cbn in C |- *; [discriminate|]; eauto.
  - destruct (scrapePage _ _ _ _ w s1) as [[e2|v] s2]; cbv beta iota.
    + pose proof (cleanup_ok w s2 Hd) as C.
      destruct (cleanup w s2) as [[e|[]] s3]; cbn in C |- *; [discriminate|]; eauto.
    + pose proof (cleanup_ok w s2 Hd) as C.
      destruct (cleanup w s2) as [[e|[]] s3]; cbn in C |- *; [discriminate|]; eauto.
Qed.

Lemma fetch_bad_method_witness :
  fetch {| req_authorization := Some "Bearer secret"; req_method := "GET"; req_body := None |}
    (demo_world 200) empty_st =
    (inr (response_json [("message", JStr "Invalid request method");
                         ("status", JStr "failed")] 405), empty_st).
Proof.
  apply fetch_bad_method; [vm_compute; reflexivity | discriminate | discriminate].
Defined.

Lemma fetch_validates_body_witness :
  (req_body {| req_authorization := Some "Bearer secret"; req_method := "POST"; req_body := None |} = None ->
   fetch {| req_authorization := Some "Bearer secret"; req_method := "POST"; req_body := None |}
     (demo_world 200) empty_st = (inl (w_json_error (demo_world 200)), empty_st)) /\
  (forall body, req_body {| req_authorization := Some "Bearer secret"; req_method := "POST"; req_body := None |} = Some body ->
   truthy (js_get body "url") = false ->
   fetch {| req_authorization := Some "Bearer secret"; req_method := "POST"; req_body := None |}
     (demo_world 200) empty_st =
     (inr (response_json [("message", JStr "URL is required");
                          ("status", JStr "failed")] 400), empty_st)).
Proof.
  apply fetch_validates_body; [vm_compute; reflexivity | left; reflexivity].
Defined.

Lemma fetch_put_enqueues_witness :
  truthy (js_get url_only_body "url") = true /\
  fetch {| req_authorization := Some "Bearer secret"; req_method := "PUT";
           req_body := Some url_only_body |} (demo_world 200) empty_st =
    ((if w_queue_send_ok (demo_world 200) then
        inr (response_json [("message", JStr "Request Accepted"); ("status", JStr "success");
                            ("request", url_only_body)] 202)
      else
        inr (response_json [("message", JStr "Failed to send message to queue");
                            ("status", JStr "failed")] 500)),
     {| trace := trace empty_st ++
          [EvQueueSend (JObj [("url", js_get url_only_body "url");
                              ("idle", js_or (js_get url_only_body "idle") DEFAULT_AWAIT_NETWORK_IDLE);
                              ("lang", js_or (js_get url_only_body "lang") DEFAULT_LANG);
                              ("mode", js_or (js_get url_only_body "mode") DEFAULT_MODE)])];
        browser := browser empty_st; page_metadata := page_metadata empty_st;
        raw_html_bucket := raw_html_bucket empty_st;
        screenshot_bucket := screenshot_bucket empty_st |}).
Proof.
  split; [reflexivity|].
  apply fetch_put_enqueues; [vm_compute; reflexivity | reflexivity | reflexivity | reflexivity].
Defined.

Lemma fetch_post_answers_witness :
  exists resp, fst (fetch (post_request url_only_body) (demo_world 404) empty_st) = inr resp /\
    (resp_status resp = 200%Z \/ resp_status resp = 500%Z).
Proof.
  apply fetch_post_answers with (body := url_only_body);
    [reflexivity | vm_compute; reflexivity | reflexivity | reflexivity | reflexivity].
Defined.


(** When no unconnected session accepts the attach (none listed, or the
    chosen one refuses), [getBrowser] swallows the error and launches a
    browser: at most one failed attach precedes the launch, the result is
    the launch's, and launch failure is the error thrown. *)
Theorem getBrowser_falls_back_to_launch w st sessions :
  w_sessions w = Some sessions -> browser st = None ->
  (forall sid, In sid (unconnected_ids sessions) -> w_connect_ok w sid = false) ->
  fst (getBrowser w st) = (if w_launch w then inr tt else inl "Failed to launch browser") /\
  browser (snd (getBrowser w st)) = w_launch w /\
  exists tr, trace (snd (getBrowser w st)) =
               trace st ++ [EvSessions] ++ tr ++ [EvLaunch (if w_launch w then true else false)] /\
             acquisitions tr = 0 /\ length tr <= 1.
Proof.
  intros Hss Hb Hc.
  unfold getBrowser, bind, ask, emit, modify, gets, set_browser, ret, throw.
  rewrite Hss; cbn [fst snd trace browser].
  destruct (Nat.ltb 0 (length (unconnected_ids sessions))).
  - destruct (nth_error (unconnected_ids sessions)
                (random_index (w_random w) (length (unconnected_ids sessions)))) as [sid|] eqn:E.
    + rewrite (Hc sid) by (eapply nth_error_In; eassumption); cbn.
      rewrite Hb; destruct (w_launch w); cbn;
        (split; [reflexivity|]; split; [reflexivity|]);
        exists [EvConnect sid false]; rewrite <- !app_assoc; auto.
    + cbn; rewrite Hb; destruct (w_launch w); cbn;
        (split; [reflexivity|]; split; [reflexivity|]);
        exists [EvConnect "undefined" false]; rewrite <- !app_assoc; auto.
  - cbn; rewrite Hb; destruct (w_launch w); cbn;
      (split; [reflexivity|]; split; [reflexivity|]);
      exists []; rewrite <- !app_assoc; cbn; auto.
Qed.


Lemma getBrowser_falls_back_to_launch_witness :
  fst (getBrowser refusing_world empty_st) =
    (if w_launch refusing_world then inr tt else inl "Failed to launch browser") /\
  browser (snd (getBrowser refusing_world empty_st)) = w_launch refusing_world /\
  exists tr, trace (snd (getBrowser refusing_world empty_st)) =
               trace empty_st ++ [EvSessions] ++ tr ++
               [EvLaunch (if w_launch refusing_world then true else false)] /\
             acquisitions tr = 0 /\ length tr <= 1.
Proof.
  apply getBrowser_falls_back_to_launch with
    (sessions := [{| sessionId := "s-busy"; connectionId := Some "c1" |};
                  {| sessionId := "s-free"; connectionId := None |}]);
    [reflexivity | reflexivity | intros sid _; reflexivity].
Defined.

(** A [lang] that is [undefined], [null] or an object makes
    [savePageMetadata] fail (bind type error or NOT NULL) and leaves the
    table as it was. *)
Theorem savePageMetadata_rejects_lang k u lang w s :
  lang = JUndef \/ lang = JNull \/ (exists fs, lang = JObj fs) ->
  (exists e, fst (savePageMetadata k u lang w s) = inl e) /\
  page_metadata (snd (savePageMetadata k u lang w s)) = page_metadata s.
Proof.
  intros H.
  unfold savePageMetadata, bind, emit, modify, ask, gets, throw, set_page_metadata; cbn.
  destruct (w_d1_ok w); cbn; [|eauto].
  destruct H as [-> | [-> | [fs ->]]]; cbn; [eauto| |eauto].
  unfold upsert_page_metadata; cbn; eauto.
Qed.

Lemma savePageMetadata_rejects_lang_witness :
  (exists e, fst (savePageMetadata "k" "https://example.com" JNull (demo_world 200) crawled_st) = inl e) /\
  page_metadata (snd (savePageMetadata "k" "https://example.com" JNull (demo_world 200) crawled_st)) =
    page_metadata crawled_st.
Proof. apply savePageMetadata_rejects_lang; right; left; reflexivity. Defined.


Lemma navigateToPage_returns u idle w s p s' :
  navigateToPage u idle w s = (inr p, s') -> p = u.
Proof.
  unfold navigateToPage, bind, gets, ask, emit, modify, ret, throw.
  destruct (browser s); [|discriminate]; cbn.
  destruct (w_newPage_ok w); cbn; [|discriminate].
  destruct (w_goto w u); cbn; try discriminate.
  destruct (Z.eqb status 200); cbn; [|discriminate].
  destruct (w_idle_ok w u); cbn; [|discriminate].
  congruence.
Qed.

Lemma getPageContent_inr p w s html s' :
  getPageContent p w s = (inr html, s') ->
  w_content w p = Some html /\ raw_html_bucket s' = raw_html_bucket s /\
  screenshot_bucket s' = screenshot_bucket s /\ page_metadata s' = page_metadata s.
Proof.
  unfold getPageContent, bind, emit, modify, ask, ret, throw; cbn.
  destruct (w_content w p); [|discriminate]; intros H; injection H as <- <-; auto.
Qed.

Lemma getPageScreenshot_inr p w s png s' :
  getPageScreenshot p w s = (inr png, s') ->
  w_screenshot w p = Some png /\ raw_html_bucket s' = raw_html_bucket s /\
  screenshot_bucket s' = screenshot_bucket s /\ page_metadata s' = page_metadata s.
Proof.
  unfold getPageScreenshot, bind, emit, modify, ask, ret, throw; cbn.
  destruct (w_screenshot w p); [|discriminate]; intros H; injection H as <- <-; auto.
Qed.

Lemma saveHTML_inr k html w s s' :
  saveHTML k html w s = (inr tt, s') ->
  raw_html_bucket s' = r2_put (k ++ ".html")%string html (raw_html_bucket s) /\
  screenshot_bucket s' = screenshot_bucket s /\ page_metadata s' = page_metadata s.
Proof.
  unfold saveHTML, bind, emit, modify, ask, put_raw_html, throw; cbn.
  destruct (w_raw_html_put_ok w); [|discriminate]; intros H; injection H as <-; auto.
Qed.

Lemma saveScreenshot_inr k png w s s' :
  saveScreenshot k png w s = (inr tt, s') ->
  screenshot_bucket s' = r2_put (k ++ ".png")%string png (screenshot_bucket s) /\
  raw_html_bucket s' = raw_html_bucket s /\ page_metadata s' = page_metadata s.
Proof.
  unfold saveScreenshot, bind, emit, modify, ask, put_screenshot, throw; cbn.
  destruct (w_screenshot_put_ok w); [|discriminate]; intros H; injection H as <-; auto.
Qed.

Lemma r2_put_find k v b :
  find (fun kv => String.eqb (fst kv) k) (r2_put k v b) = Some (k, v).
Proof. cbn; rewrite String.eqb_refl; reflexivity. Qed.

(** After a successful [scrapePage] the URL's row points at the key
    [r2Key] of its (hostname, href); in the html and all modes the page
    content is stored under [r2Key ++ ".html"], in the screenshot and all
    modes the screenshot under [r2Key ++ ".png"]; a bucket the mode does not
    name is left unchanged. *)
Theorem scrapePage_stores_artifacts w st u idle lang mode v st' :
  scrapePage (JStr u) idle lang mode w st = (inr v, st') ->
  exists domain href, w_parseURL w u = Some (domain, href) /\
  let r2Key := generateStorageKey (w_subtle w) domain href in
  (exists r, find_url u (page_metadata st') = Some r /\ pm_r2_path r = r2Key) /\
  (if mode_is mode "html" || mode_is mode "all" then
     exists html, w_content w u = Some html /\
       find (fun kv => String.eqb (fst kv) (r2Key ++ ".html")%string) (raw_html_bucket st') =
         Some ((r2Key ++ ".html")%string, html)
   else raw_html_bucket st' = raw_html_bucket st) /\
  (if mode_is mode "screenshot" || mode_is mode "all" then
     exists png, w_screenshot w u = Some png /\
       find (fun kv => String.eqb (fst kv) (r2Key ++ ".png")%string) (screenshot_bucket st') =
         Some ((r2Key ++ ".png")%string, png)
   else screenshot_bucket st' = screenshot_bucket st).
Proof.
  intros E.
  destruct (scrapePage_ok_upsert _ _ _ _ _ _ _ _ E) as [domain [href [l [Hp [_ Hu]]]]].
  exists domain, href; split; [exact Hp|]; cbv zeta.
  split; [exact (upsert_row_key _ _ _ _ _ _ Hu)|].
  clear Hu l.
  unfold scrapePage in E.
  apply bind_inr in E as [w' [s0 [H0 E]]]; injection H0 as <- <-.
  rewrite Hp in E; cbv zeta in E.
  apply bind_inr in E as [page [s1 [H1 E]]].
  apply bind_inr in E as [[] [s2 [H2 E]]].
  apply bind_inr in E as [[] [s3 [H3 E]]].
  apply bind_inr in E as [[] [s4 [H4 E]]].
  injection E as _ <-.
  pose proof (navigateToPage_returns _ _ _ _ _ _ H1); subst page.
  destruct (navigateToPage_keeps u idle) as [_ [K1 K2]].
  pose proof (keeps_inr _ _ _ _ _ _ K1 H1) as R1.
  pose proof (keeps_inr _ _ _ _ _ _ K2 H1) as S1.
  destruct (savePageMetadata_keeps_buckets (generateStorageKey (w_subtle w) domain href) u lang)
    as [K3 K4].
  pose proof (keeps_inr _ _ _ _ _ _ K3 H4) as R4.
  pose proof (keeps_inr _ _ _ _ _ _ K4 H4) as S4.
  rewrite R4, S4.
  destruct (mode_is mode "html" || mode_is mode "all")%bool;
  destruct (mode_is mode "screenshot" || mode_is mode "all")%bool.
  - apply bind_inr in H2 as [html [s5 [Hc Hs]]].
    apply getPageContent_inr in Hc as [Hc [Rc [Sc _]]].
    apply saveHTML_inr in Hs as [Rs [Ss _]].
    apply bind_inr in H3 as [png [s6 [Hc' Hs']]].
    apply getPageScreenshot_inr in Hc' as [Hc' [Rc' [Sc' _]]].
    apply saveScreenshot_inr in Hs' as [Ss' [Rs' _]].
    split; [exists html | exists png]; split; try assumption.
    + rewrite Rs', Rc', Rs; apply r2_put_find.
    + rewrite Ss'; apply r2_put_find.
  - apply bind_inr in H2 as [html [s5 [Hc Hs]]].
    apply getPageContent_inr in Hc as [Hc [Rc [Sc _]]].
    apply saveHTML_inr in Hs as [Rs [Ss _]].
    injection H3 as <-.
    split; [exists html; split; [assumption | rewrite Rs; apply r2_put_find]|].
    congruence.
  - injection H2 as <-.
    apply bind_inr in H3 as [png [s6 [Hc' Hs']]].
    apply getPageScreenshot_inr in Hc' as [Hc' [Rc' [Sc' _]]].
    apply saveScreenshot_inr in Hs' as [Ss' [Rs' _]].
    split; [congruence|].
    exists png; split; [assumption | rewrite Ss'; apply r2_put_find].
  - injection H2 as <-; injection H3 as <-; split; congruence.
Qed.

Lemma scrapePage_stores_artifacts_witness :
  let st' := snd (scrapePage (JStr "https://example.com") (JNum 1000) (JStr "en") (JStr "all")
                    (demo_world 200) attached_st) in
  scrapePage (JStr "https://example.com") (JNum 1000) (JStr "en") (JStr "all")
    (demo_world 200) attached_st = (inr JUndef, st') /\
  exists domain href, w_parseURL (demo_world 200) "https://example.com" = Some (domain, href) /\
  let r2Key := generateStorageKey (w_subtle (demo_world 200)) domain href in
  (exists r, find_url "https://example.com" (page_metadata st') = Some r /\ pm_r2_path r = r2Key) /\
  (if mode_is (JStr "all") "html" || mode_is (JStr "all") "all" then
     exists html, w_content (demo_world 200) "https://example.com" = Some html /\
       find (fun kv => String.eqb (fst kv) (r2Key ++ ".html")%string) (raw_html_bucket st') =
         Some ((r2Key ++ ".html")%string, html)
   else raw_html_bucket st' = raw_html_bucket attached_st) /\
  (if mode_is (JStr "all") "screenshot" || mode_is (JStr "all") "all" then
     exists png, w_screenshot (demo_world 200) "https://example.com" = Some png /\
       find (fun kv => String.eqb (fst kv) (r2Key ++ ".png")%string) (screenshot_bucket st') =
         Some ((r2Key ++ ".png")%string, png)
   else screenshot_bucket st' = screenshot_bucket attached_st).
Proof.
  intros st'.
  assert (E : scrapePage (JStr "https://example.com") (JNum 1000) (JStr "en") (JStr "all")
                (demo_world 200) attached_st = (inr JUndef, st')) by (vm_compute; reflexivity).
  split; [exact E | exact (scrapePage_stores_artifacts _ _ _ _ _ _ _ _ E)].
Defined.

Lemma bind_inl {A B} (m : M A) (f : A -> M B) w s e s' :
  bind m f w s = (inl e, s') ->
  m w s = (inl e, s') \/ exists a s1, m w s = (inr a, s1) /\ f a w s1 = (inl e, s').
Proof. unfold bind; destruct (m w s) as [[e1|a] s1]; intros H; [injection H as -> ->|]; eauto. Qed.

Lemma keeps_run {C A} (proj : St -> C) (m : M A) w s r s' :
  keeps proj m -> m w s = (r, s') -> proj s' = proj s.
Proof. intros K H; specialize (K w s); rewrite H in K; exact K. Qed.

Lemma savePageMetadata_inl k u lang w s e s' :
  savePageMetadata k u lang w s = (inl e, s') -> page_metadata s' = page_metadata s.
Proof.
  unfold savePageMetadata, bind, emit, modify, ask, gets, throw, set_page_metadata; cbn.
  destruct (w_d1_ok w); cbn; [|intros H; injection H as _ <-; reflexivity].
  destruct (d1_bind lang) as [l|]; cbn; [|intros H; injection H as _ <-; reflexivity].
  destruct (upsert_page_metadata _ _ _ _ _); cbn; [discriminate|].
  intros H; injection H as _ <-; reflexivity.
Qed.

(** A failed [scrapePage] leaves [PageMetadata] unchanged (artifacts
    written before the failure stay in the buckets). *)
Theorem scrapePage_failure_keeps_table url idle lang mode w st e st' :
  scrapePage url idle lang mode w st = (inl e, st') ->
  page_metadata st' = page_metadata st.
Proof.
  unfold scrapePage; intros E.
  apply bind_inl in E as [E | [w' [s0 [H0 E]]]]; [discriminate E|]; injection H0 as <- <-.
  destruct url as [| | | | u |]; try (injection E as _ <-; reflexivity).
  destruct (w_parseURL w u) as [[domain href]|]; [|injection E as _ <-; reflexivity].
  cbv zeta in E.
  destruct (navigateToPage_keeps u idle) as [K1 _].
  apply bind_inl in E as [E | [page [s1 [H1 E]]]]; [exact (keeps_run _ _ _ _ _ _ K1 E)|].
  rewrite <- (keeps_run _ _ _ _ _ _ K1 H1).
  apply bind_inl in E as [E | [[] [s2 [H2 E]]]];
    [match type of E with ?m _ _ = _ =>
       apply (keeps_run page_metadata m) in E; [exact E|];
       unfold getPageContent, saveHTML; keeps_solve end|].
  match type of H2 with ?m _ _ = _ =>
    apply (keeps_run page_metadata m) in H2; [rewrite <- H2|];
    [|unfold getPageContent, saveHTML; keeps_solve] end.
  apply bind_inl in E as [E | [[] [s3 [H3 E]]]];
    [match type of E with ?m _ _ = _ =>
       apply (keeps_run page_metadata m) in E; [exact E|];
       unfold getPageScreenshot, saveScreenshot; keeps_solve end|].
  match type of H3 with ?m _ _ = _ =>
    apply (keeps_run page_metadata m) in H3; [rewrite <- H3|];
    [|unfold getPageScreenshot, saveScreenshot; keeps_solve] end.
  apply bind_inl in E as [E | [[] [s4 [H4 E]]]]; [exact (savePageMetadata_inl _ _ _ _ _ _ _ E)|].
  discriminate E.
Qed.

Lemma scrapePage_failure_keeps_table_witness :
  scrapePage (JStr "https://example.com") (JNum 1000) JNull (JStr "html") (demo_world 200) crawled_st =
    (inl "NOT NULL constraint failed: PageMetadata.lang",
     snd (scrapePage (JStr "https://example.com") (JNum 1000) JNull (JStr "html")
            (demo_world 200) crawled_st)) /\
  page_metadata (snd (scrapePage (JStr "https://example.com") (JNum 1000) JNull (JStr "html")
                        (demo_world 200) crawled_st)) = page_metadata crawled_st.
Proof.
  assert (E : scrapePage (JStr "https://example.com") (JNum 1000) JNull (JStr "html") (demo_world 200) crawled_st =
    (inl "NOT NULL constraint failed: PageMetadata.lang",
     snd (scrapePage (JStr "https://example.com") (JNum 1000) JNull (JStr "html")
            (demo_world 200) crawled_st))) by (vm_compute; reflexivity).
  split; [exact E | exact (scrapePage_failure_keeps_table _ _ _ _ _ _ _ _ E)].
Defined.

Lemma find_url_app_other u t r : pm_url r <> u -> find_url u (t ++ [r]) = find_url u t.
Proof.
  intros Hr; induction t as [|r0 t IH]; cbn.
  - apply String.eqb_neq in Hr; rewrite Hr; reflexivity.
  - destruct (String.eqb (pm_url r0) u); [reflexivity | exact IH].
Qed.

Lemma upsert_find_other now u u' k l t t' :
  u' <> u -> upsert_page_metadata now u k l t = Some t' -> find_url u' t' = find_url u' t.
Proof.
  intros Hne Hu.
  assert (Hl : l <> SqlNull) by (intros ->; discriminate Hu).
  destruct (find_url u t) as [r|] eqn:E.
  - rewrite (upsert_existing _ _ _ _ _ _ Hl E) in Hu; injection Hu as <-.
    rewrite find_url_map by apply update_row_url.
    destruct (find_url u' t) as [r'|] eqn:E'; [|reflexivity]; cbn.
    unfold update_row; rewrite (find_url_url _ _ _ E').
    apply String.eqb_neq in Hne; rewrite Hne; reflexivity.
  - unfold upsert_page_metadata in Hu; rewrite E in Hu.
    destruct l; [contradiction| |]; injection Hu as <-;
      apply find_url_app_other; cbn; congruence.
Qed.

(** Two different URL strings that parse to the same (hostname, href)
    get two rows after being scraped, and both rows point at the same
    storage key: the second scrape overwrote the objects of the first. *)
Theorem scrapePage_spellings_share_key w1 w2 st st1 st2 u1 u2 idle lang mode v1 v2 domain href :
  u1 <> u2 ->
  w_parseURL w1 u1 = Some (domain, href) -> w_parseURL w2 u2 = Some (domain, href) ->
  w_subtle w1 = w_subtle w2 ->
  scrapePage (JStr u1) idle lang mode w1 st = (inr v1, st1) ->
  scrapePage (JStr u2) idle lang mode w2 st1 = (inr v2, st2) ->
  exists r1 r2,
    find_url u1 (page_metadata st2) = Some r1 /\ find_url u2 (page_metadata st2) = Some r2 /\
    pm_r2_path r1 = generateStorageKey (w_subtle w1) domain href /\
    pm_r2_path r2 = generateStorageKey (w_subtle w1) domain href.
Proof.
  intros Hne Hp1 Hp2 Hs E1 E2.
  destruct (scrapePage_ok_upsert _ _ _ _ _ _ _ _ E1) as [d1 [h1 [l1 [Hq1 [_ Hu1]]]]].
  destruct (scrapePage_ok_upsert _ _ _ _ _ _ _ _ E2) as [d2 [h2 [l2 [Hq2 [_ Hu2]]]]].
  rewrite Hp1 in Hq1; injection Hq1 as <- <-.
  rewrite Hp2 in Hq2; injection Hq2 as <- <-.
  destruct (upsert_row_key _ _ _ _ _ _ Hu1) as [r1 [F1 K1]].
  destruct (upsert_row_key _ _ _ _ _ _ Hu2) as [r2 [F2 K2]].
  exists r1, r2; split; [|split; [exact F2|split; [exact K1 | rewrite Hs; exact K2]]].
  rewrite (upsert_find_other _ _ _ _ _ _ _ Hne Hu2); exact F1.
Qed.



Lemma scrapePage_spellings_share_key_witness :
  let st1 := snd (scrapePage (JStr "https://example.com") (JNum 1000) (JStr "en") (JStr "html")
                    spelling_world attached_st) in
  let st2 := snd (scrapePage (JStr "https://example.com/") (JNum 1000) (JStr "en") (JStr "html")
                    spelling_world st1) in
  exists r1 r2,
    find_url "https://example.com" (page_metadata st2) = Some r1 /\
    find_url "https://example.com/" (page_metadata st2) = Some r2 /\
    pm_r2_path r1 = generateStorageKey (w_subtle spelling_world) "example.com" "https://example.com/" /\
    pm_r2_path r2 = generateStorageKey (w_subtle spelling_world) "example.com" "https://example.com/".
Proof.
  intros st1 st2.
  apply scrapePage_spellings_share_key with
    (w2 := spelling_world) (st := attached_st) (st1 := st1)
    (idle := JNum 1000) (lang := JStr "en") (mode := JStr "html") (v1 := JUndef) (v2 := JUndef);
    [discriminate | reflexivity | reflexivity | reflexivity | vm_compute; reflexivity | vm_compute; reflexivity].
Defined.


Ltac legacy_cases :=
  repeat match goal with
  | H : context [match ?x with _ => _ end] |- _ =>
      lazymatch x with
      | context [match _ with _ => _ end] => fail
      | _ => destruct x eqn:?
      end
  | H : context [if ?x then _ else _] |- _ =>
      lazymatch x with
      | context [match _ with _ => _ end] => fail
      | _ => destruct x eqn:?
      end
  end.

(** The first worker never answers 200: its [INSERT] names the columns
    [created_at] and [updated_at], which the [PageMetadata] table of
    src/schema/page_metadata.sql does not have. *)
Theorem legacy_fetch_never_200 request w s resp :
  fst (Legacy.fetch request w s) = inr resp -> Legacy.resp_status resp <> 200%Z.
Proof.
  unfold Legacy.fetch; intros H.
  legacy_cases; cbn in H; try discriminate H; try (injection H as <-; cbn; try discriminate).
  all: match goal with H : negb (Z.eqb ?x 200) = true |- ?x <> _ =>
         rewrite Bool.negb_true_iff, Z.eqb_neq in H; exact H end.
Qed.

Lemma legacy_fetch_never_200_witness :
  fst (Legacy.fetch legacy_request (legacy_world 200) legacy_empty_st) =
    inr {| Legacy.resp_status := 500; Legacy.resp_text := "Failed to save page metadata" |} /\
  Legacy.resp_status {| Legacy.resp_status := 500;
                        Legacy.resp_text := "Failed to save page metadata" |} <> 200%Z.
Proof.
  assert (E : fst (Legacy.fetch legacy_request (legacy_world 200) legacy_empty_st) =
    inr {| Legacy.resp_status := 500; Legacy.resp_text := "Failed to save page metadata" |})
    by (vm_compute; reflexivity).
  split; [exact E | exact (legacy_fetch_never_200 _ _ _ _ E)].
Defined.

(** When the first worker answers "Failed to load page", it has acquired
    one browser session and never disconnected it; the status is the
    navigation's status, or 500 for a null response or status 0. *)
Theorem legacy_load_failure_keeps_session request w s resp :
  fst (Legacy.fetch request w s) = inr resp -> Legacy.resp_text resp = "Failed to load page" ->
  exists tr href,
    Legacy.trace (snd (Legacy.fetch request w s)) = Legacy.trace s ++ tr /\
    last tr Legacy.LSessions = Legacy.LGoto href /\
    length (filter Legacy.acquires tr) = 1 /\ filter Legacy.releases tr = [] /\
    ((Legacy.w_goto w href = GotoNull /\ Legacy.resp_status resp = 500%Z) \/
     exists status, Legacy.w_goto w href = GotoStatus status /\ status <> 200%Z /\
       Legacy.resp_status resp = (if Z.eqb status 0 then 500 else status)%Z).
Proof.
  unfold Legacy.fetch; intros H Ht.
  legacy_cases; cbn in H |- *; try discriminate H; injection H as <-; try discriminate Ht.
  all: eexists _, _; split; [rewrite <- !app_assoc; reflexivity|]; cbn.
  all: split; [reflexivity|]; split; [reflexivity|]; split; [reflexivity|].
  all: first
    [ left; split; [eassumption | reflexivity]
    | right; eexists; split; [eassumption|]; split;
      [ match goal with H : negb (Z.eqb ?x 200) = true |- ?x <> _ =>
          rewrite Bool.negb_true_iff, Z.eqb_neq in H; exact H end
      | match goal with H : Z.eqb ?x 0 = _ |- _ => rewrite H; reflexivity end ] ].
Qed.

(** When every remote call of the first worker succeeds, the HTML is
    stored under the key itself (no suffix), the session is acquired and
    disconnected once, and the answer is 500 "Failed to save page
    metadata". *)
Theorem legacy_fetch_stores_then_fails request w s u domain href html title :
  option_map (replace_first "Bearer " "") (Legacy.req_authorization request) =
    Some (Legacy.w_API_TOKEN w) ->
  Legacy.req_url request = Some u -> u <> "" ->
  Legacy.w_parseURL w u = Some (domain, href) ->
  Legacy.w_sessions w <> None -> Legacy.w_launch w <> None ->
  Legacy.w_newPage_ok w = true -> Legacy.w_goto w href = GotoStatus 200 ->
  Legacy.w_idle_ok w = true -> Legacy.w_content w = Some html ->
  Legacy.w_title w = Some title -> Legacy.w_disconnect_ok w = true ->
  Legacy.w_r2_put_ok w = true ->
  let r2Key := Legacy.generateStorageKey (Legacy.w_subtle w) domain href in
  fst (Legacy.fetch request w s) =
    inr {| Legacy.resp_status := 500; Legacy.resp_text := "Failed to save page metadata" |} /\
  find (fun kv => String.eqb (fst kv) r2Key) (Legacy.raw_html_bucket (snd (Legacy.fetch request w s))) =
    Some (r2Key, html) /\
  exists tr, Legacy.trace (snd (Legacy.fetch request w s)) = Legacy.trace s ++ tr /\
    length (filter Legacy.acquires tr) = 1 /\ length (filter Legacy.releases tr) = 1.
Proof.
  intros Ha Hu Hne Hp Hs Hl Hn Hg Hi Hc Ht Hd Hr r2Key.
  apply String.eqb_neq in Hne.
  unfold Legacy.fetch; rewrite Ha, String.eqb_refl, Hu, Hne, Hp; cbn [negb].
  destruct (Legacy.w_sessions w) as [l|]; [|contradiction].
  destruct (Legacy.w_launch w) as [sid|]; [|contradiction].
  rewrite Hn, Hg, Hi, Hc, Ht, Hd, Hr; cbn [negb Z.eqb Pos.eqb].
  change (Legacy.columns_exist Legacy.insert_columns) with false; cbn [andb negb].
  repeat match goal with
  | |- context [match ?x with _ => _ end] =>
      lazymatch x with
      | context [match _ with _ => _ end] => fail
      | _ => destruct x eqn:?
      end
  end.
  all: try (exfalso; match goal with H : negb _ = true |- _ => discriminate H end).
  all: cbn; split; [reflexivity|]; split;
    [rewrite String.eqb_refl; reflexivity
    | eexists; split; [rewrite <- !app_assoc; reflexivity | cbn; split; reflexivity]].
Qed.

(** With [Math.random()] in [0, 1), the first worker's
    [getRandomSession] returns [""] when every session is connected and
    otherwise one of the unconnected sessions, never [undefined]. *)
Theorem legacy_getRandomSession_picks sessions r :
  (0 <= r)%Q -> (r < 1)%Q ->
  (unconnected_ids sessions = [] -> Legacy.getRandomSession sessions r = Some "") /\
  (unconnected_ids sessions <> [] ->
   exists sid, Legacy.getRandomSession sessions r = Some sid /\ In sid (unconnected_ids sessions)).
Proof.
  intros H0 H1; unfold Legacy.getRandomSession; split.
  - intros ->; reflexivity.
  - intros Hne.
    assert (Hpos : 0 < length (unconnected_ids sessions))
      by (destruct (unconnected_ids sessions); [contradiction | cbn; lia]).
    assert (Hl : Nat.eqb (length (unconnected_ids sessions)) 0 = false)
      by (apply Nat.eqb_neq; lia).
    rewrite Hl.
    pose proof (random_index_lt r _ H0 H1 Hpos) as Hlt.
    destruct (nth_error (unconnected_ids sessions)
                (random_index r (length (unconnected_ids sessions)))) as [sid|] eqn:E.
    + exists sid; split; [reflexivity | eapply nth_error_In; eassumption].
    + apply nth_error_None in E; lia.
Qed.




Lemma legacy_load_failure_keeps_session_witness :
  fst (Legacy.fetch legacy_request (legacy_world 404) legacy_empty_st) =
    inr {| Legacy.resp_status := 404; Legacy.resp_text := "Failed to load page" |} /\
  exists tr href,
    Legacy.trace (snd (Legacy.fetch legacy_request (legacy_world 404) legacy_empty_st)) =
      Legacy.trace legacy_empty_st ++ tr /\
    last tr Legacy.LSessions = Legacy.LGoto href /\
    length (filter Legacy.acquires tr) = 1 /\ filter Legacy.releases tr = [] /\
    ((Legacy.w_goto (legacy_world 404) href = GotoNull /\
      Legacy.resp_status {| Legacy.resp_status := 404; Legacy.resp_text := "Failed to load page" |} = 500%Z) \/
     exists status, Legacy.w_goto (legacy_world 404) href = GotoStatus status /\ status <> 200%Z /\
       Legacy.resp_status {| Legacy.resp_status := 404; Legacy.resp_text := "Failed to load page" |} =
         (if Z.eqb status 0 then 500 else status)%Z).
Proof.
  assert (E : fst (Legacy.fetch legacy_request (legacy_world 404) legacy_empty_st) =
    inr {| Legacy.resp_status := 404; Legacy.resp_text := "Failed to load page" |})
    by (vm_compute; reflexivity).
  split; [exact E | exact (legacy_load_failure_keeps_session _ _ _ _ E eq_refl)].
Defined.

Lemma legacy_fetch_stores_then_fails_witness :
  let r2Key := Legacy.generateStorageKey (Legacy.w_subtle (legacy_world 200))
                 "example.com" "https://example.com/" in
  fst (Legacy.fetch legacy_request (legacy_world 200) legacy_empty_st) =
    inr {| Legacy.resp_status := 500; Legacy.resp_text := "Failed to save page metadata" |} /\
  find (fun kv => String.eqb (fst kv) r2Key)
    (Legacy.raw_html_bucket (snd (Legacy.fetch legacy_request (legacy_world 200) legacy_empty_st))) =
    Some (r2Key, "<html></html>") /\
  exists tr, Legacy.trace (snd (Legacy.fetch legacy_request (legacy_world 200) legacy_empty_st)) =
               Legacy.trace legacy_empty_st ++ tr /\
    length (filter Legacy.acquires tr) = 1 /\ length (filter Legacy.releases tr) = 1.
Proof.
  apply legacy_fetch_stores_then_fails with (u := "https://example.com") (title := "Example");
    try reflexivity; discriminate.
Defined.

Lemma legacy_getRandomSession_picks_witness :
  (unconnected_ids [{| sessionId := "s-busy"; connectionId := Some "c1" |};
                    {| sessionId := "s-free"; connectionId := None |}] = [] ->
   Legacy.getRandomSession [{| sessionId := "s-busy"; connectionId := Some "c1" |};
                            {| sessionId := "s-free"; connectionId := None |}] (1 # 2) = Some "") /\
  (unconnected_ids [{| sessionId := "s-busy"; connectionId := Some "c1" |};
                    {| sessionId := "s-free"; connectionId := None |}] <> [] ->
   exists sid, Legacy.getRandomSession [{| sessionId := "s-busy"; connectionId := Some "c1" |};
                                        {| sessionId := "s-free"; connectionId := None |}] (1 # 2) = Some sid /\
     In sid (unconnected_ids [{| sessionId := "s-busy"; connectionId := Some "c1" |};
                              {| sessionId := "s-free"; connectionId := None |}])).
Proof. apply legacy_getRandomSession_picks; vm_compute; first [discriminate | reflexivity]. Defined.
